(** * Transit classification: data loading and pre-processing (utils.py)

    A shallow embedding of [linear_func], [stitch], [collect_curves] and
    [collect_curves_tofiles].  NumPy float64 arrays are lists of primitive
    binary64 floats, Python exceptions are values of [exn], and the calls
    that leave the process (the random generator, the light-curve archive,
    scipy's optimiser, the file system) are explicit state or parameters. *)

From Stdlib Require Import Floats ZArith List Bool Lia Permutation.
From stdpp Require Import gmap strings list pretty.
Import ListNotations.

Set Warnings "-inexact-float".

(** ** Exceptions and fallible results *)

(** What a [len] recorded for an output file looks like: the list [[0]] for
    a file that was just created, an integer row count for one that was
    read back. *)
Inductive filelen :=
| LenList0
| LenInt (n : nat).

Inductive exn :=
| NameError (name : string)
| TypeError (msg : string)
| ValueError (msg : string)
| OverflowError (msg : string)
| AttributeError (msg : string)
| IndexError (msg : string)
| FileNotFoundError (path : string)
| EmptyDataError
| ParserError
| LibraryError (msg : string)
| DifferentRows (paths : list string) (lengths : list filelen).

Inductive result (A : Type) :=
| Ok (a : A)
| Raise (e : exn).
Arguments Ok {A} a.
Arguments Raise {A} e.

Definition bind {A B} (r : result A) (k : A -> result B) : result B :=
  match r with
  | Ok a => k a
  | Raise e => Raise e
  end.

#[global] Instance result_bind : MBind result := fun A B k r => bind r k.
#[global] Instance result_ret : MRet result := @Ok.

(** ** Python numbers *)

(** [float(n)] for a Python int: the nearest binary64, ties to even. *)
Definition py_float (n : Z) : float :=
  SF2Prim (binary_normalize prec emax n 0 false).

(** [int(x)] for a Python float: truncation toward zero. *)
Definition py_int (x : float) : result Z :=
  match Prim2SF x with
  | S754_zero _ => Ok 0%Z
  | S754_finite s m e =>
      let mag := if (0 <=? e)%Z then (Z.pos m * 2 ^ e)%Z
                 else (Z.pos m / 2 ^ (- e))%Z in
      Ok (if s then (- mag)%Z else mag)
  | S754_infinity _ => Raise (OverflowError "cannot convert float infinity to integer")
  | S754_nan => Raise (ValueError "cannot convert float NaN to integer")
  end.

(** The objects the membership test [x in transit_ids] is given. *)
Inductive pyval :=
| PyInt (z : Z)
| PyBuiltinFunction (name : string).

(** ** NumPy arrays *)

Definition isfinite (x : float) : bool := is_finite x.

(** Elementwise [a / b] of two columns of one table. *)
Definition np_div (a b : list float) : list float :=
  zip_with PrimFloat.div a b.

(** A binary ufunc on 1-d arrays: equal lengths pair up, a length-1
    operand is broadcast, anything else raises. *)
Definition np_broadcast {A B C} (f : A -> B -> C) (a : list A) (b : list B)
  : result (list C) :=
  if decide (length a = length b) then Ok (zip_with f a b)
  else match a, b with
       | _, [y] => Ok (map (fun x => f x y) a)
       | [x], _ => Ok (map (f x) b)
       | _, _ => Raise (ValueError "operands could not be broadcast together")
       end.

(** Boolean-mask indexing [arr[mask]]. *)
Fixpoint np_select {A} (mask : list bool) (arr : list A) : list A :=
  match mask, arr with
  | m :: mask', x :: arr' =>
      if m then x :: np_select mask' arr' else np_select mask' arr'
  | _, _ => []
  end.

(** Boolean-mask assignment [arr[mask] = v]. *)
Definition np_putmask {A} (arr : list A) (mask : list bool) (v : A)
  : result (list A) :=
  if decide (length mask = length arr)
  then Ok (zip_with (fun (m : bool) x => if m then v else x) mask arr)
  else Raise (IndexError "boolean index did not match indexed array").

(** Integer-array indexing [arr[idx]]. *)
Definition np_take {A} (arr : list A) (idx : list nat) : result (list A) :=
  match mapM (fun i => arr !! i) idx with
  | Some l => Ok l
  | None => Raise (IndexError "index is out of bounds")
  end.

(** [x in arr] on an integer array: some element compares equal to [x].
    An integer never compares equal to a function object. *)
Definition py_eq_int (x : pyval) (e : Z) : bool :=
  match x with
  | PyInt z => (z =? e)%Z
  | PyBuiltinFunction _ => false
  end.

Definition np_contains (x : pyval) (arr : list Z) : bool :=
  existsb (py_eq_int x) arr.

(** The slice [arr[0:n]]. *)
Definition py_slice0 {A} (arr : list A) (n : Z) : list A :=
  if (0 <=? n)%Z then take (Z.to_nat n) arr
  else take (Z.to_nat (Z.of_nat (length arr) + n)) arr.

(** [np.zeros(shape)]. *)
Definition np_zeros (n : Z) : result (list float) :=
  if (n <? 0)%Z then Raise (ValueError "negative dimensions are not allowed")
  else Ok (replicate (Z.to_nat n) 0%float).

Definition np_zeros2 (rows : nat) (n : Z) : result (list (list float)) :=
  row ← np_zeros n; Ok (replicate rows row).

(** The row assignment [arr[i] = v] into a 2-d array of [width] columns. *)
Definition np_setrow (width : nat) (arr : list (list float)) (i : nat)
    (v : list float) : result (list (list float)) :=
  if decide (length v = width) then Ok (<[i := v]> arr)
  else match v with
       | [x] => Ok (<[i := replicate width x]> arr)
       | _ => Raise (ValueError "could not broadcast input array")
       end.

(** [np.linspace(start, stop, num)]. *)
Definition np_linspace (start stop : float) (num : Z) : result (list float) :=
  if (num <? 0)%Z then Raise (ValueError "Number of samples must be non-negative")
  else
    let div := py_float (num - 1) in
    let delta := (stop - start)%float in
    let step := (delta / div)%float in
    let point (i : nat) : float :=
      let y := py_float (Z.of_nat i) in
      let y := if (0 <? num - 1)%Z
               then if (step =? 0)%float then (y / div * delta)%float
                    else (y * step)%float
               else (y * delta)%float in
      (y + start)%float in
    let n := Z.to_nat num in
    Ok (map (fun i => if ((1 <? num)%Z && (i =? n - 1)%nat)%bool then stop
                      else point i)
            (seq 0 n)).

(** [np.interp(x, xp, fp)] for increasing sample points [xp]. *)
Fixpoint interp_scan (pts : list (float * float)) (x : float) : float :=
  match pts with
  | [] => nan
  | (x0, y0) :: rest =>
      match rest with
      | [] => y0
      | (x1, y1) :: _ =>
          if (x <? x1)%float then
            if (x0 =? x)%float then y0
            else
              let slope := ((y1 - y0) / (x1 - x0))%float in
              let r := (slope * (x - x0) + y0)%float in
              if is_nan r then
                let r' := (slope * (x - x1) + y1)%float in
                if (is_nan r' && (y0 =? y1)%float)%bool then y0 else r'
              else r
          else interp_scan rest x
      end
  end.

Definition interp_point (xp fp : list float) (x : float) : float :=
  match fp with
  | [y] => y
  | _ =>
      if is_nan x then x
      else if (List.last xp 0 <? x)%float then List.last fp 0%float
      else if (x <? List.hd 0 xp)%float then List.hd 0%float fp
      else interp_scan (zip xp fp) x
  end.

Definition np_interp (x xp fp : list float) : result (list float) :=
  match xp with
  | [] => Raise (ValueError "array of sample points is empty")
  | _ => if decide (length fp = length xp) then Ok (map (interp_point xp fp) x)
         else Raise (ValueError "fp and xp are not of the same length.")
  end.

(** ** Light curves *)

(** One cadence of a quarter.  A lightkurve [LightCurve] is a table, so its
    [time], [flux], [flux_err] and [quality] columns have one length. *)
Record sample := Sample {
  s_time : float;
  s_flux : float;
  s_flux_err : float;
  s_quality : Z
}.

Abbreviation LightCurve := (list sample).
Abbreviation LightCurveCollection := (list (list sample)).

Definition lc_flux (lc : LightCurve) : list float := map s_flux lc.
Definition lc_time (lc : LightCurve) : list float := map s_time lc.
Definition lc_flux_err (lc : LightCurve) : list float := map s_flux_err lc.
Definition lc_quality (lc : LightCurve) : list Z := map s_quality lc.

(** The four arrays [stitch] returns.  The quality flags are integers; the
    float64 array they are stacked into holds each of them exactly. *)
Record stitched := Stitched {
  tot_time : list float;
  tot_flux : list float;
  tot_flux_err : list float;
  tot_qual : list Z
}.

(** [curve_fit(linear_func, xdata, ydata)] of scipy.optimize: the fitted
    [(a, b)], or the exception the optimiser raises. *)
Class Scipy := {
  curve_fit : list float -> list float -> result (float * float)
}.

Definition linear_func (x a b : float) : float := (a * x + b)%float.

Definition nan_mask (flux : list float) : list bool :=
  map (fun x => negb (is_nan x)) flux.

Definition fit_quarter `{Scipy} (lc : LightCurve) : result (float * float) :=
  curve_fit (np_select (nan_mask (lc_flux lc)) (lc_time lc))
            (np_select (nan_mask (lc_flux lc)) (lc_flux lc)).

Definition linear_trend (lc : LightCurve) (popt : float * float) : list float :=
  map (fun x => linear_func x (fst popt) (snd popt)) (lc_time lc).

Fixpoint stitch_loop `{Scipy} (tot : stitched) (quarters : list LightCurve)
  : result stitched :=
  match quarters with
  | [] => Ok tot
  | lc :: rest =>
      let flux := lc_flux lc in
      let time := lc_time lc in
      let flux_err := lc_flux_err lc in
      let qual := lc_quality lc in
      let rel_flux_err := np_div flux_err flux in
      popt ← fit_quarter lc;
      let norm := np_div flux (linear_trend lc popt) in
      stitch_loop
        {| tot_time := tot_time tot ++ time;
           tot_flux := tot_flux tot ++ norm;
           tot_flux_err := tot_flux_err tot ++ rel_flux_err;
           tot_qual := tot_qual tot ++ qual |}
        rest
  end.

Definition stitch `{Scipy} (lc_collection : LightCurveCollection) : result stitched :=
  stitch_loop
    {| tot_time := []; tot_flux := []; tot_flux_err := []; tot_qual := [] |}
    lc_collection.

(** [stitch(curve)] on what [download_all()] returned, which is [None] when
    the search found nothing. *)
Definition stitch_downloaded `{Scipy} (curve : option LightCurveCollection)
  : result stitched :=
  match curve with
  | Some c => stitch c
  | None => Raise (TypeError "object of type 'NoneType' has no len()")
  end.

(** The per-quarter pieces, in the words of the docstring. *)
Definition detrended (lc : LightCurve) (popt : float * float) : list float :=
  np_div (lc_flux lc) (linear_trend lc popt).

Definition relative_error (lc : LightCurve) : list float :=
  np_div (lc_flux_err lc) (lc_flux lc).

(** [fits_of c popts]: the optimiser returned [popts !! i] on quarter [i]. *)
Definition fits_of `{Scipy} (c : LightCurveCollection) (popts : list (float * float))
  : Prop :=
  Forall2 (fun lc popt => fit_quarter lc = Ok popt) c popts.

(** ** Quality mask and resampling *)

(** "Set poor quality data to NaN": the product of the five boolean arrays,
    then [flux[np.invert(good)] = np.NaN]. *)
Definition good_mask (s : stitched) : result (list bool) :=
  g ← np_broadcast andb (map (fun q => (q =? 0)%Z) (tot_qual s))
                        (map (fun e => (0 <? e)%float) (tot_flux_err s));
  g ← np_broadcast andb g (map isfinite (tot_time s));
  g ← np_broadcast andb g (map isfinite (tot_flux s));
  np_broadcast andb g (map isfinite (tot_flux_err s)).

Definition mask_poor_quality (s : stitched) : result stitched :=
  good ← good_mask s;
  flux ← np_putmask (tot_flux s) (map negb good) nan;
  Ok {| tot_time := tot_time s; tot_flux := flux;
        tot_flux_err := tot_flux_err s; tot_qual := tot_qual s |}.

(** "Force to length n_timesteps": returns the new [(flux, time)]. *)
Definition resample (n_timesteps : Z) (fp : list float) : result (list float) :=
  x ← np_linspace 0 (py_float (n_timesteps - 1)) n_timesteps;
  xp ← np_linspace 0 (py_float (n_timesteps - 1)) (Z.of_nat (length fp));
  np_interp x xp fp.

Definition downsize (downsize_method : string) (n_timesteps : Z)
    (flux time : list float) : result (list float * list float) :=
  '(flux, time) ←
    (if decide (downsize_method = "interpolate") then
       flux' ← resample n_timesteps flux;
       time' ← resample n_timesteps time;
       Ok (flux', time')
     else Ok (flux, time));
  if decide (downsize_method = "truncate")
  then Ok (py_slice0 flux n_timesteps, py_slice0 time n_timesteps)
  else Ok (flux, time).

(** ** The outside world *)

(** One row of [Data/exoplanet_archive_KOIs.csv], with the two columns the
    code reads. *)
Record koi := Koi {
  kepid : Z;
  koi_disposition : string
}.

(** [numpy.random]: the generator state, [randint(0, high, size)] and
    [permutation(n)]. *)
Class NumpyRandom := {
  rng : Type;
  randint : nat -> nat -> rng -> list nat * rng;
  permutation : nat -> rng -> list nat * rng
}.

(** What NumPy documents of the two: [size] draws below [high], and a
    rearrangement of [0 .. n-1]. *)
Definition lawful_random `{NumpyRandom} : Prop :=
  (forall high size g,
      0 < high ->
      length (randint high size g).1 = size /\
      Forall (fun i => i < high) (randint high size g).1) /\
  (forall high g, (randint high 0 g).1 = []) /\
  (forall n g, Permutation (permutation n g).1 (seq 0 n)).

(** [lightkurve]: the archive's state, [search_lightcurve(...).download_all()]
    (which is [None] when nothing was found), and the chain of lightkurve
    calls of lines 211-223 that flattens the curve, searches the BLS
    periodogram and folds, giving [(folded_time, folded_flux)] or the
    exception one of the calls raises.  [download_all] also stores the FITS
    files it fetched in lightkurve's own download directory; that directory
    belongs to the archive's state [net], and nothing below speaks of the
    files in it. *)
Class Lightkurve := {
  net : Type;
  download_all : Z -> net -> result (option LightCurveCollection) * net;
  bls_fold : option LightCurveCollection -> result (list float * list float)
}.

(** [str(x)] of a float, as an f-string prints it. *)
Class PyFormat := {
  str_float : float -> string
}.

(** A csv cell, and a file as the rows written to it. *)
Inductive cell :=
| CFloat (x : float)
| CInt (z : Z).

Definition row := list cell.

(** The state a call works on: the KOI table on disk (if it is there), the
    directories a csv file can be created in, the csv files with their rows,
    the random generator and the archive (lightkurve's download directory
    included).  [w_fs] and [w_dirs] hold what utils.py itself opens, not the
    whole file system. *)
Record world `{NumpyRandom} `{Lightkurve} := World {
  w_koi : option (list koi);
  w_dirs : gset string;
  w_fs : gmap string (list row);
  w_rng : rng;
  w_net : net
}.

Definition set_fs `{NumpyRandom} `{Lightkurve} (fs : gmap string (list row))
    (w : world) : world :=
  {| w_koi := w_koi w; w_dirs := w_dirs w; w_fs := fs;
     w_rng := w_rng w; w_net := w_net w |}.

Definition set_rng `{NumpyRandom} `{Lightkurve} (g : rng) (w : world) : world :=
  {| w_koi := w_koi w; w_dirs := w_dirs w; w_fs := w_fs w;
     w_rng := g; w_net := w_net w |}.

Definition set_net `{NumpyRandom} `{Lightkurve} (n : net) (w : world) : world :=
  {| w_koi := w_koi w; w_dirs := w_dirs w; w_fs := w_fs w;
     w_rng := w_rng w; w_net := n |}.

Section Model.
Context `{Scipy} `{NumpyRandom} `{Lightkurve} `{PyFormat}.

(** Computations that may raise and that change the world. *)
Definition M (A : Type) : Type := world -> result A * world.

Definition M_ret {A} (a : A) : M A := fun w => (Ok a, w).

Definition M_bind {A B} (m : M A) (k : A -> M B) : M B :=
  fun w => match m w with
           | (Ok a, w') => k a w'
           | (Raise e, w') => (Raise e, w')
           end.

#[global] Instance M_mret : MRet M := @M_ret.
#[global] Instance M_mbind : MBind M := fun A B k m => M_bind m k.

Definition lift {A} (r : result A) : M A := fun w => (r, w).

Definition raise {A} (e : exn) : M A := lift (Raise e).

(** [pd.read_csv('Data/exoplanet_archive_KOIs.csv')]. *)
Definition read_koi : M (list koi) :=
  fun w => match w_koi w with
           | Some data => (Ok data, w)
           | None => (Raise (FileNotFoundError "Data/exoplanet_archive_KOIs.csv"), w)
           end.

(** [data.loc[data['koi_disposition'] == d]['kepid'].to_list()]. *)
Definition kepids_with (d : string) (data : list koi) : list Z :=
  map kepid (filter (fun r => koi_disposition r = d) data).

(** [np.random.choice(a, size=size)]: draws with replacement. *)
Definition np_random_choice (a : list Z) (size : Z) : M (list Z) :=
  fun w =>
    if (size <? 0)%Z
    then (Raise (ValueError "negative dimensions are not allowed"), w)
    else if (bool_decide (a = []) && negb (size =? 0)%Z)%bool
    then (Raise (ValueError "'a' cannot be empty unless no samples are taken"), w)
    else
      let '(idx, g) := randint (length a) (Z.to_nat size) (w_rng w) in
      (np_take a idx, set_rng g w).

Definition np_random_permutation (n : nat) : M (list nat) :=
  fun w =>
    let '(p, g) := permutation n (w_rng w) in
    (Ok p, set_rng g w).

(** [lk.search_lightcurve(f'KIC{star}', ...).download_all()]: what it
    downloads and stores is a change of the archive's state. *)
Definition search_download (star : Z) : M (option LightCurveCollection) :=
  fun w =>
    let '(r, n) := download_all star (w_net w) in
    (r, set_net n w).

(** The number of ids drawn from each class. *)
Definition n_nontransit (n_curves : Z) (pct_transit : float) : result Z :=
  py_int (py_float n_curves * (1 - pct_transit / 100))%float.

Definition n_transit (n_curves : Z) (pct_transit : float) : result Z :=
  py_int (py_float n_curves * (pct_transit / 100))%float.

(** Lines 88-100 and, word for word, 160-172: the shuffled ids, and the
    transit ids among them. *)
Definition select_ids (n_curves : Z) (pct_transit : float)
  : M (list Z * list Z) :=
  data ← read_koi;
  let all_nontransit_ids := kepids_with "FALSE POSITIVE" data in
  size ← lift (n_nontransit n_curves pct_transit);
  nontransit_ids ← np_random_choice all_nontransit_ids size;
  let all_ids := nontransit_ids in
  let all_transit_ids := kepids_with "CONFIRMED" data in
  size ← lift (n_transit n_curves pct_transit);
  transit_ids ← np_random_choice all_transit_ids size;
  let all_ids := all_ids ++ transit_ids in
  p ← np_random_permutation (length all_ids);
  all_ids ← lift (np_take all_ids p);
  mret (all_ids, transit_ids).

(** *** collect_curves *)

Record arrays := Arrays {
  all_curves : list (list float);
  all_times : list (list float);
  all_labels : list float
}.

Fixpoint curves_loop (n_timesteps : Z) (downsize_method : string)
    (transit_ids : list Z) (all_ids : list Z) (i : nat) (a : arrays)
  : M arrays :=
  match all_ids with
  | [] => mret a
  | star :: rest =>
      curve ← search_download star;
      s ← lift (stitch_downloaded curve);
      s ← lift (mask_poor_quality s);
      '(flux, time) ← lift (downsize downsize_method n_timesteps
                                     (tot_flux s) (tot_time s));
      let label := if np_contains (PyBuiltinFunction "id") transit_ids
                   then 1%float else 0%float in
      times ← lift (np_setrow (Z.to_nat n_timesteps) (all_times a) i time);
      curves ← lift (np_setrow (Z.to_nat n_timesteps) (all_curves a) i flux);
      curves_loop n_timesteps downsize_method transit_ids rest (S i)
        {| all_curves := curves; all_times := times;
           all_labels := <[i := label]> (all_labels a) |}
  end.

Definition collect_curves (n_curves : Z) (n_timesteps : Z)
    (downsize_method : string) (pct_transit : float) : M arrays :=
  '(all_ids, transit_ids) ← select_ids n_curves pct_transit;
  curves ← lift (np_zeros2 (length all_ids) n_timesteps);
  times ← lift (np_zeros2 (length all_ids) n_timesteps);
  labels ← lift (np_zeros (Z.of_nat (length all_ids)));
  curves_loop n_timesteps downsize_method transit_ids all_ids 0
    {| all_curves := curves; all_times := times; all_labels := labels |}.

(** *** collect_curves_tofiles *)

(** What a global name can be bound to when the per-star loop calls it. *)
Inductive pyobj :=
| PyStitcher (f : option LightCurveCollection -> result stitched)
| PyFilter (f : list float -> Z -> result (list float))
| PyBinner (f : list float -> list float -> Z -> result (list float * list float))
| PyOther (name : string).

(** The globals of utils.py once the module has run: its imports and its
    four functions. *)
Definition utils_globals : gmap string pyobj :=
  list_to_map
    [ ("np", PyOther "module numpy");
      ("pd", PyOther "module pandas");
      ("lk", PyOther "module lightkurve");
      ("curve_fit", PyOther "function curve_fit");
      ("csv", PyOther "module csv");
      ("os", PyOther "module os");
      ("linear_func", PyOther "function linear_func");
      ("stitch", PyStitcher stitch_downloaded);
      ("collect_curves", PyOther "function collect_curves");
      ("collect_curves_tofiles", PyOther "function collect_curves_tofiles") ].

(** The built-in names the module refers to.  Python has more built-ins;
    none of them is called [stitch_quarters], [medfilt] or
    [binned_statistic], the names looked up below. *)
Definition py_builtins : list string :=
  ["int"; "len"; "range"; "print"; "open"; "all"; "id"; "Exception"].

(** A global name is looked up when the call is reached: in the module's
    globals, then among the built-ins. *)
Definition load_global (globals : gmap string pyobj) (name : string)
  : result pyobj :=
  match globals !! name with
  | Some o => Ok o
  | None => if bool_decide (name ∈ py_builtins)
            then Ok (PyOther ("built-in " +:+ name))
            else Raise (NameError name)
  end.

Definition call_stitcher (o : pyobj) (curve : option LightCurveCollection)
  : result stitched :=
  match o with
  | PyStitcher f => f curve
  | _ => Raise (TypeError "object cannot be called this way")
  end.

Definition call_filter (o : pyobj) (x : list float) (kernel : Z)
  : result (list float) :=
  match o with
  | PyFilter f => f x kernel
  | _ => Raise (TypeError "object cannot be called this way")
  end.

Definition call_binner (o : pyobj) (x values : list float) (bins : Z)
  : result (list float * list float) :=
  match o with
  | PyBinner f => f x values bins
  | _ => Raise (TypeError "object cannot be called this way")
  end.

(** [os.path.exists], [open(path, 'w')], [len(pd.read_csv(path, header=None))]
    and [writer.writerow] on the file store.  A file can be created in a
    directory that exists. *)
Definition path_exists (path : string) : M bool :=
  fun w => (Ok (bool_decide (is_Some (w_fs w !! path))), w).

Definition create_file (savepath path : string) : M unit :=
  fun w =>
    if bool_decide (savepath ∈ w_dirs w)
    then (Ok tt, set_fs (<[path := []]> (w_fs w)) w)
    else (Raise (FileNotFoundError path), w).

(** pandas skips blank lines, finds no columns in a file without data, and
    rejects a line with more fields than the first one. *)
Definition read_csv_len (rows : list row) : result nat :=
  match filter (fun r : row => r ≠ []) rows with
  | [] => Raise EmptyDataError
  | r0 :: rest =>
      if bool_decide (Forall (fun r : row => length r <= length r0) rest)
      then Ok (S (length rest))
      else Raise ParserError
  end.

Definition file_rows (fs : gmap string (list row)) (path : string) : list row :=
  default [] (fs !! path).

Definition csv_len (path : string) : M nat :=
  fun w => (read_csv_len (file_rows (w_fs w) path), w).

Definition writerow (path : string) (r : row) : M unit :=
  fun w => (Ok tt, set_fs (<[path := file_rows (w_fs w) path ++ [r]]> (w_fs w)) w).

Definition filepath_of (savepath tag : string) (n_timesteps : Z)
    (pct_transit : float) : string :=
  savepath +:+ "/" +:+ tag +:+ "_all_" +:+ pretty n_timesteps +:+ "_"
    +:+ str_float pct_transit +:+ ".csv".

(** [element == filelengths[0]] between lists and ints. *)
Definition filelen_eqb (a b : filelen) : bool :=
  match a, b with
  | LenList0, LenList0 => true
  | LenInt n, LenInt m => (n =? m)%nat
  | _, _ => false
  end.

Definition all_same (filelengths : list filelen) : bool :=
  match filelengths with
  | [] => true
  | first :: _ => forallb (fun element => filelen_eqb element first) filelengths
  end.

(** "Create files if they don't exist, else check that they have the same
    length". *)
Fixpoint check_files (savepath : string) (n_timesteps : Z) (pct_transit : float)
    (tags : list string) (filepaths : list string) (filelengths : list filelen)
  : M (list string * list filelen) :=
  match tags with
  | [] => mret (filepaths, filelengths)
  | tag :: rest =>
      let filepath := filepath_of savepath tag n_timesteps pct_transit in
      let filepaths := filepaths ++ [filepath] in
      e ← path_exists filepath;
      if negb e then
        _ ← create_file savepath filepath;
        check_files savepath n_timesteps pct_transit rest filepaths
                    (filelengths ++ [LenList0])
      else
        n ← csv_len filepath;
        check_files savepath n_timesteps pct_transit rest filepaths
                    (filelengths ++ [LenInt n])
  end.

Definition prepare_files (savepath : string) (n_timesteps : Z)
    (pct_transit : float) : M (list string) :=
  '(filepaths, filelengths) ←
    check_files savepath n_timesteps pct_transit ["flux"; "time"; "labels"] [] [];
  if negb (all_same filelengths)
  then raise (DifferentRows filepaths filelengths)
  else mret filepaths.

Definition write_rows (filepaths : list string) (flux time : list float)
    (label : Z) : M unit :=
  _ ← writerow (filepaths !!! 0%nat) (map CFloat flux);
  _ ← writerow (filepaths !!! 1%nat) (map CFloat time);
  writerow (filepaths !!! 2%nat) [CInt label].

(** The body of the download loop, for one star. *)
Definition tofiles_star (globals : gmap string pyobj) (n_timesteps : Z)
    (downsize_method : string) (phase_fold smooth : bool)
    (filepaths : list string) (transit_ids : list Z) (star : Z) : M unit :=
  let label := if np_contains (PyInt star) transit_ids then 1%Z else 0%Z in
  curve ← search_download star;
  stitch_quarters ← lift (load_global globals "stitch_quarters");
  s ← lift (call_stitcher stitch_quarters curve);
  flux ← (if smooth then
            medfilt ← lift (load_global globals "medfilt");
            m ← lift (call_filter medfilt (tot_flux s) 51);
            lift (np_broadcast PrimFloat.div (tot_flux s) m)
          else mret (tot_flux s));
  if phase_fold then
    '(folded_time, folded_flux) ← lift (bls_fold curve);
    binned_statistic ← lift (load_global globals "binned_statistic");
    '(binned, bin_edges) ←
      lift (call_binner binned_statistic folded_time folded_flux n_timesteps);
    let folded_smoothed_time := drop 1 bin_edges in
    medfilt ← lift (load_global globals "medfilt");
    folded_smoothed_flux ← lift (call_filter medfilt binned 3);
    write_rows filepaths folded_smoothed_flux folded_smoothed_time label
  else
    s ← lift (mask_poor_quality
                {| tot_time := tot_time s; tot_flux := flux;
                   tot_flux_err := tot_flux_err s; tot_qual := tot_qual s |});
    '(flux, time) ← lift (downsize downsize_method n_timesteps
                                   (tot_flux s) (tot_time s));
    write_rows filepaths flux time label.

Fixpoint tofiles_loop (globals : gmap string pyobj) (n_timesteps : Z)
    (downsize_method : string) (phase_fold smooth : bool)
    (filepaths : list string) (transit_ids : list Z) (all_ids : list Z)
  : M unit :=
  match all_ids with
  | [] => mret tt
  | star :: rest =>
      _ ← tofiles_star globals n_timesteps downsize_method phase_fold smooth
                       filepaths transit_ids star;
      tofiles_loop globals n_timesteps downsize_method phase_fold smooth
                   filepaths transit_ids rest
  end.

Definition collect_curves_tofiles (globals : gmap string pyobj)
    (n_curves : Z) (n_timesteps : Z) (downsize_method : string)
    (phase_fold smooth : bool) (pct_transit : float) (savepath : string)
  : M unit :=
  '(all_ids, transit_ids) ← select_ids n_curves pct_transit;
  filepaths ← prepare_files savepath n_timesteps pct_transit;
  tofiles_loop globals n_timesteps downsize_method phase_fold smooth
               filepaths transit_ids all_ids.

End Model.

(** ** Specification-side definitions *)

(** The cadences of a quarter whose flux is not NaN. *)
Definition nonnan_samples (lc : LightCurve) : list sample :=
  filter (fun smp => is_nan (s_flux smp) = false) lc.

(** A sample the quality mask rejects, in the words of the comment
    "Set poor quality data to NaN". *)
Definition poor_quality (t f e : float) (q : Z) : Prop :=
  q ≠ 0%Z \/ (0 <? e)%float = false \/ isfinite t = false \/
  isfinite f = false \/ isfinite e = false.

(** The same test as one boolean per cadence. *)
Definition good_sample (t f e : float) (q : Z) : bool :=
  (q =? 0)%Z && (0 <? e)%float && isfinite t && isfinite f && isfinite e.

(** How many stars the download loop carried to the end of its body. *)
Fixpoint stars_done `{Scipy} `{NumpyRandom} `{Lightkurve} `{PyFormat}
    (globals : gmap string pyobj) (n_timesteps : Z)
    (downsize_method : string) (phase_fold smooth : bool)
    (filepaths : list string) (transit_ids : list Z) (all_ids : list Z)
    (w : world) : nat :=
  match all_ids with
  | [] => 0
  | star :: rest =>
      match tofiles_star globals n_timesteps downsize_method phase_fold smooth
                         filepaths transit_ids star w with
      | (Ok _, w') =>
          S (stars_done globals n_timesteps downsize_method phase_fold smooth
                        filepaths transit_ids rest w')
      | (Raise _, _) => 0
      end
  end.

(** The label [collect_curves_tofiles] gives a star. *)
Definition tofiles_label (transit_ids : list Z) (star : Z) : Z :=
  if np_contains (PyInt star) transit_ids then 1%Z else 0%Z.

(** The world once the file check has passed [path]: the file is there,
    empty if it had to be created. *)
Definition touch_file `{NumpyRandom} `{Lightkurve} (path : string) (w : world)
  : world :=
  match w_fs w !! path with
  | Some _ => w
  | None => set_fs (<[path := []]> (w_fs w)) w
  end.

(** A computation that leaves the file store as it is, whatever it
    returns. *)
Definition frames_files `{NumpyRandom} `{Lightkurve} {A} (m : M A) : Prop :=
  forall w, w_fs (m w).2 = w_fs w.

(** [w'] is [w] with one more row in each of the three files, the one in the
    labels file holding [label]. *)
Definition appended_star `{NumpyRandom} `{Lightkurve} (p0 p1 p2 : string)
    (label : Z) (w w' : world) : Prop :=
  exists flux_row time_row,
    file_rows (w_fs w') p0 = file_rows (w_fs w) p0 ++ [flux_row] /\
    file_rows (w_fs w') p1 = file_rows (w_fs w) p1 ++ [time_row] /\
    file_rows (w_fs w') p2 = file_rows (w_fs w) p2 ++ [[CInt label]].

(** A loop body that either completes and appends one row per file, or
    raises and leaves the files alone. *)
Definition writes_star `{NumpyRandom} `{Lightkurve} (p0 p1 p2 : string)
    (label : Z) (m : M unit) : Prop :=
  forall w,
    match m w with
    | (Ok _, w') => appended_star p0 p1 p2 label w w'
    | (Raise _, w') => w_fs w' = w_fs w
    end.

(** What the file check records for one path: [[0]] for a file it creates,
    the row count pandas reads back for one that exists. *)
Definition records (fs : gmap string (list row)) (path : string) (l : filelen)
  : Prop :=
  match fs !! path with
  | None => l = LenList0
  | Some rows => exists n, read_csv_len rows = Ok n /\ l = LenInt n
  end.

(** ** A small concrete world *)

(** Closed-form least squares for a line, standing in for the optimiser. *)
Definition sum_floats (l : list float) : float :=
  foldr PrimFloat.add 0%float l.

Definition least_squares (x y : list float) : result (float * float) :=
  if (length x <? 2)%nat
  then Raise (TypeError "The number of func parameters=2 must not exceed the number of data points")
  else
    let n := py_float (Z.of_nat (length x)) in
    let sx := sum_floats x in
    let sy := sum_floats y in
    let sxx := sum_floats (zip_with PrimFloat.mul x x) in
    let sxy := sum_floats (zip_with PrimFloat.mul x y) in
    let a := ((n * sxy - sx * sy) / (n * sxx - sx * sx))%float in
    Ok (a, ((sy - a * sx) / n)%float).

Definition demo_scipy : Scipy := {| curve_fit := least_squares |}.

Definition demo_random : NumpyRandom :=
  {| rng := nat;
     randint := fun high size g =>
       (map (fun i => (g + i) mod high) (seq 0 size), g + size);
     permutation := fun n g => (rev (seq 0 n), S g) |}.

(** The archive answers from a script, one entry per request. *)
Definition demo_lightkurve : Lightkurve :=
  {| net := list (result (option LightCurveCollection));
     download_all := fun _ script =>
       match script with
       | r :: rest => (r, rest)
       | [] => (Raise (LibraryError "connection failed"), [])
       end;
     bls_fold := fun curve =>
       match curve with
       | Some c => Ok (concat (map lc_time c), concat (map lc_flux c))
       | None => Raise (AttributeError "'NoneType' object has no attribute 'stitch'")
       end |}.

Definition demo_format : PyFormat :=
  {| str_float := fun x => if (x =? 100)%float then "100.0" else "48.8" |}.

Definition demo_quarter1 : LightCurve :=
  [ Sample 0 2 0.5 0; Sample 1 4 0.5 0; Sample 2 6 0.5 128 ]%float.

Definition demo_quarter2 : LightCurve :=
  [ Sample 3 10 1 0; Sample 4 nan 1 0; Sample 5 10 (-1) 0; Sample 6 10 1 0 ]%float.

Definition demo_curve : LightCurveCollection := [demo_quarter1; demo_quarter2].

Definition demo_short_curve : LightCurveCollection := [demo_quarter1].

Definition demo_koi : list koi :=
  [ Koi 11446443 "CONFIRMED"; Koi 10418224 "FALSE POSITIVE";
    Koi 10666592 "CONFIRMED"; Koi 9941859 "CANDIDATE" ].

Definition demo_world (fs : gmap string (list row))
    (script : list (result (option LightCurveCollection)))
  : @world demo_random demo_lightkurve :=
  @World demo_random demo_lightkurve (Some demo_koi) {[ "../LC_Data" ]} fs
         0%nat script.

(** The fits of the two quarters of [demo_curve]. *)
Definition demo_popts : list (float * float) := [(2, 2); (0, 10)]%float.

(** File stores: a flux file alone with two rows, a time file alone without
    data, and the three files as a first call leaves them. *)
Definition demo_files : gmap string (list row) :=
  {[ "../LC_Data/flux_all_5_48.8.csv" := [[CFloat 1; CFloat 1]; [CFloat 1]] ]}.

Definition demo_empty_time : gmap string (list row) :=
  {[ "../LC_Data/time_all_5_48.8.csv" := [] ]}.

Definition demo_three_empty : gmap string (list row) :=
  {[ "../LC_Data/flux_all_5_48.8.csv" := [];
     "../LC_Data/time_all_5_48.8.csv" := [];
     "../LC_Data/labels_all_5_48.8.csv" := [] ]}.

(** What [stitch] makes of [demo_curve]. *)
Definition demo_rel_err : list float := Eval vm_compute in
  [0.5 / 2; 0.5 / 4; 0.5 / 6; 1 / 10; 1 / nan; -1 / 10; 1 / 10]%float.

Definition demo_stitched : stitched :=
  {| tot_time := [0; 1; 2; 3; 4; 5; 6]%float;
     tot_flux := [1; 1; 1; 1; nan; 1; 1]%float;
     tot_flux_err := demo_rel_err;
     tot_qual := [0; 0; 128; 0; 0; 0; 0]%Z |}.

(** What [collect_curves] returns for the one star of [demo_curve] and
    three timesteps. *)
Definition demo_arrays : arrays :=
  {| all_curves := [[1; 1; 1]]%float;
     all_times := [[0; 3; 6]]%float;
     all_labels := [0]%float |}.


Definition demo_arrays_two : arrays :=
  {| all_curves := [[1; 1; 1]; [1; 1; nan]]%float;
     all_times := [[0; 3; 6]; [0; 1; 2]]%float;
     all_labels := [0; 0]%float |}.

(** utils.py with [stitch_quarters] bound to [stitch], as the call on line
    205 reads. *)
Definition patched_globals `{Scipy} : gmap string pyobj :=
  <["stitch_quarters" := PyStitcher stitch_downloaded]> utils_globals.

(** ** Definitions for the further properties *)

(** Two results of [stitch], one after the other. *)
Definition stitched_app (s1 s2 : stitched) : stitched :=
  {| tot_time := tot_time s1 ++ tot_time s2;
     tot_flux := tot_flux s1 ++ tot_flux s2;
     tot_flux_err := tot_flux_err s1 ++ tot_flux_err s2;
     tot_qual := tot_qual s1 ++ tot_qual s2 |}.

(** A computation that leaves the KOI table and the directories alone and
    changes no file outside [paths], whatever it returns. *)
Definition confined `{NumpyRandom} `{Lightkurve} {A} (paths : list string)
    (m : M A) : Prop :=
  forall w,
    w_koi (m w).2 = w_koi w /\ w_dirs (m w).2 = w_dirs w /\
    forall q, q ∉ paths -> w_fs (m w).2 !! q = w_fs w !! q.

(** A collection with at least one cadence on whose quarters the optimiser
    returns, and an archive that answers every request with one. *)
Definition fittable `{Scipy} (c : LightCurveCollection) : Prop :=
  concat c ≠ [] /\ exists popts, fits_of c popts.

Definition steady_archive `{Scipy} `{Lightkurve} : Prop :=
  forall star n, exists c n',
    download_all star n = (Ok (Some c), n') /\ fittable c.

(** An archive that always answers with [demo_curve]. *)
Definition steady_lightkurve : Lightkurve :=
  {| net := nat;
     download_all := fun _ n => (Ok (Some demo_curve), S n);
     bls_fold := fun curve =>
       match curve with
       | Some c => Ok (concat (map lc_time c), concat (map lc_flux c))
       | None => Raise (AttributeError "'NoneType' object has no attribute 'stitch'")
       end |}.

Definition steady_world : @world demo_random steady_lightkurve :=
  @World demo_random steady_lightkurve (Some demo_koi) {[ "../LC_Data" ]} ∅
         0%nat 0%nat.

(** A quarter with a single cadence, which no line can be fitted to. *)
Definition demo_lone_quarter : LightCurve := [ Sample 7 3 0.5 0 ]%float.

(** What the mask makes of [demo_stitched], and what [stitch] makes of
    [demo_short_curve]. *)
Definition demo_masked : stitched :=
  {| tot_time := [0; 1; 2; 3; 4; 5; 6]%float;
     tot_flux := [1; 1; nan; 1; nan; nan; 1]%float;
     tot_flux_err := demo_rel_err;
     tot_qual := [0; 0; 128; 0; 0; 0; 0]%Z |}.

Definition demo_short_stitched : stitched :=
  {| tot_time := [0; 1; 2]%float;
     tot_flux := [1; 1; 1]%float;
     tot_flux_err := take 3 demo_rel_err;
     tot_qual := [0; 0; 128]%Z |}.

(** Worlds without the KOI table, and without the directory for the csv
    files. *)
Definition demo_world_no_table : @world demo_random demo_lightkurve :=
  @World demo_random demo_lightkurve None {[ "../LC_Data" ]} ∅ 0%nat [].

Definition demo_world_no_directory : @world demo_random demo_lightkurve :=
  @World demo_random demo_lightkurve (Some demo_koi) ∅ ∅ 0%nat
         [Ok (Some demo_short_curve)].

(** * Properties *)

Lemma map_fmap {A B} (f : A -> B) (l : list A) : map f l = f <$> l.
Proof. reflexivity. Qed.

Lemma bind_Ok_inv {A B} (r : result A) (k : A -> result B) b :
  bind r k = Ok b -> exists a, r = Ok a /\ k a = Ok b.
Proof. destruct r as [a|e]; simpl; [eauto | discriminate]. Qed.

(** ** Lists and arrays *)

Lemma zip_with_map_same {A B C D} (f : B -> C -> D) (g : A -> B) (h : A -> C) l :
  zip_with f (map g l) (map h l) = map (fun x => f (g x) (h x)) l.
Proof. induction l as [|x l IH]; simpl; [done | by rewrite IH]. Qed.

Lemma lookup_concat {A} (ls : list (list A)) : forall i l j x,
  ls !! i = Some l -> l !! j = Some x ->
  concat ls !! (length (concat (take i ls)) + j) = Some x.
Proof.
  induction ls as [|l0 ls IH]; intros [|i] l j x Hl Hx; simplify_eq/=.
  - by apply lookup_app_l_Some.
  - rewrite length_app, <- Nat.add_assoc, lookup_app_r by lia.
    replace (length l0 + (length (concat (take i ls)) + j) - length l0)
      with (length (concat (take i ls)) + j) by lia.
    eauto.
Qed.

Lemma length_concat_same {A B} (ls : list (list A)) (ks : list (list B)) :
  Forall2 (fun l k => length l = length k) ls ks ->
  length (concat ls) = length (concat ks).
Proof.
  induction 1 as [|l k ls ks Hlk _ IH]; simpl; [done|].
  rewrite !length_app. lia.
Qed.

(** ** stitch *)

Section StitchFacts.
Context `{Scipy}.

Lemma stitch_loop_spec quarters : forall popts tot,
  fits_of quarters popts ->
  stitch_loop tot quarters =
    Ok {| tot_time := tot_time tot ++ concat (map lc_time quarters);
          tot_flux := tot_flux tot ++ concat (zip_with detrended quarters popts);
          tot_flux_err := tot_flux_err tot ++ concat (map relative_error quarters);
          tot_qual := tot_qual tot ++ concat (map lc_quality quarters) |}.
Proof.
  induction quarters as [|lc rest IH]; intros popts tot Hfit.
  - inversion Hfit; subst. simpl. rewrite !app_nil_r. by destruct tot.
  - inversion Hfit as [|? popt ? popts' Hlc Hrest]; subst.
    simpl. unfold mbind, result_bind. rewrite Hlc. simpl.
    rewrite (IH popts' _ Hrest). simpl. by rewrite <- !app_assoc.
Qed.

Lemma stitch_spec c popts :
  fits_of c popts ->
  stitch c =
    Ok {| tot_time := concat (map lc_time c);
          tot_flux := concat (zip_with detrended c popts);
          tot_flux_err := concat (map relative_error c);
          tot_qual := concat (map lc_quality c) |}.
Proof. intros Hfit. unfold stitch. by rewrite (stitch_loop_spec _ _ _ Hfit). Qed.

(** A quarter on which the optimiser raises makes [stitch] raise. *)
Lemma stitch_loop_raise done : forall tot lc rest e popts,
  fits_of done popts ->
  fit_quarter lc = Raise e ->
  stitch_loop tot (done ++ lc :: rest) = Raise e.
Proof.
  induction done as [|q done IH]; intros tot lc rest e popts Hfit Hlc.
  - simpl. unfold mbind, result_bind. by rewrite Hlc.
  - inversion Hfit as [|? popt ? popts' Hq Hdone]; subst.
    simpl. unfold mbind, result_bind. rewrite Hq. simpl. eapply IH; eauto.
Qed.

(** Whenever [stitch] returns, the optimiser returned on every quarter. *)
Lemma stitch_loop_fits quarters : forall tot s,
  stitch_loop tot quarters = Ok s -> exists popts, fits_of quarters popts.
Proof.
  induction quarters as [|lc rest IH]; intros tot s Hs.
  - exists []. constructor.
  - simpl in Hs. apply bind_Ok_inv in Hs as (popt & Hfit & Hs).
    apply IH in Hs as [popts Hrest]. exists (popt :: popts). by constructor.
Qed.

(** The mask [np.invert(np.isnan(flux))] keeps the cadences whose flux is
    not NaN. *)
Lemma np_select_nan_mask {A} (f : sample -> A) (lc : LightCurve) :
  np_select (nan_mask (lc_flux lc)) (map f lc) = map f (nonnan_samples lc).
Proof.
  unfold nonnan_samples, nan_mask, lc_flux.
  induction lc as [|smp lc IH]; [done|].
  rewrite filter_cons. destruct (is_nan (s_flux smp)) eqn:E.
  - rewrite decide_False by congruence. simpl. rewrite E. apply IH.
  - rewrite decide_True by done. simpl. rewrite E. simpl. f_equal. apply IH.
Qed.

Lemma fit_quarter_nonnan lc :
  fit_quarter lc =
    curve_fit (lc_time (nonnan_samples lc)) (lc_flux (nonnan_samples lc)).
Proof.
  unfold fit_quarter.
  pose proof (np_select_nan_mask s_time lc) as Ht.
  pose proof (np_select_nan_mask s_flux lc) as Hf.
  unfold lc_time, lc_flux in *. by rewrite Ht, Hf.
Qed.

Lemma detrended_pointwise lc popt :
  detrended lc popt =
    map (fun smp => (s_flux smp / linear_func (s_time smp) popt.1 popt.2)%float) lc.
Proof.
  unfold detrended, np_div, linear_trend, lc_flux, lc_time.
  rewrite map_map. apply zip_with_map_same.
Qed.

Lemma relative_error_pointwise lc :
  relative_error lc = map (fun smp => (s_flux_err smp / s_flux smp)%float) lc.
Proof. unfold relative_error, np_div. apply zip_with_map_same. Qed.

Lemma length_detrended lc popt : length (detrended lc popt) = length lc.
Proof. by rewrite detrended_pointwise, length_map. Qed.

Lemma length_relative_error lc : length (relative_error lc) = length lc.
Proof. by rewrite relative_error_pointwise, length_map. Qed.

Lemma length_concat_map {A B} (f : list A -> list B) (c : list (list A)) :
  (forall l, length (f l) = length l) ->
  length (concat (map f c)) = length (concat c).
Proof.
  intros Hf. apply length_concat_same.
  induction c; simpl; constructor; auto.
Qed.

Lemma length_concat_detrended (c : LightCurveCollection) popts :
  length c = length popts ->
  length (concat (zip_with detrended c popts)) = length (concat c).
Proof.
  intros Hlen. apply length_concat_same.
  revert popts Hlen. induction c as [|lc c IH]; intros [|p popts] Hlen;
    simplify_eq/=; constructor; auto using length_detrended.
Qed.

(** The four arrays [stitch] returns have one length. *)
Lemma stitch_lengths c s :
  stitch c = Ok s ->
  length (tot_flux s) = length (tot_time s) /\
  length (tot_flux_err s) = length (tot_time s) /\
  length (tot_qual s) = length (tot_time s).
Proof.
  intros Hs. destruct (stitch_loop_fits _ _ _ Hs) as [popts Hfit].
  rewrite (stitch_spec _ _ Hfit) in Hs. injection Hs as <-. simpl.
  unfold lc_time, lc_quality.
  rewrite (length_concat_map (map s_time)) by (intros; apply length_map).
  rewrite (length_concat_map (map s_quality)) by (intros; apply length_map).
  rewrite (length_concat_map relative_error) by apply length_relative_error.
  rewrite length_concat_detrended by (by eapply Forall2_length).
  done.
Qed.

(** C4. For every light-curve collection on whose quarters the fit returns,
    [stitch] returns four arrays; each is the concatenation, in collection
    order, of the per-quarter values (time and quality as they came, flux
    detrended, flux error relative), and each is as long as the quarters
    together. *)
Theorem stitch_concatenates (c : LightCurveCollection) popts :
  fits_of c popts ->
  exists s, stitch c = Ok s /\
    tot_time s = concat (map lc_time c) /\
    tot_flux s = concat (zip_with detrended c popts) /\
    tot_flux_err s = concat (map relative_error c) /\
    tot_qual s = concat (map lc_quality c) /\
    length (tot_time s) = list_sum (map length c) /\
    length (tot_flux s) = list_sum (map length c) /\
    length (tot_flux_err s) = list_sum (map length c) /\
    length (tot_qual s) = list_sum (map length c).
Proof.
  intros Hfit. eexists. split; [by apply stitch_spec|]. simpl.
  repeat split; try reflexivity.
  - unfold lc_time.
    rewrite (length_concat_map (map s_time)) by (intros; apply length_map).
    apply length_concat.
  - rewrite length_concat_detrended by (by eapply Forall2_length).
    apply length_concat.
  - rewrite (length_concat_map relative_error) by apply length_relative_error.
    apply length_concat.
  - unfold lc_quality.
    rewrite (length_concat_map (map s_quality)) by (intros; apply length_map).
    apply length_concat.
Qed.

(** C5. When the fit of [linear_func] to the non-NaN flux of each quarter
    against its time returns [(a, b)], the flux [stitch] returns for the
    quarter is its raw flux divided, cadence by cadence, by [a*x + b] at the
    cadence's time. *)
Theorem stitch_detrends (c : LightCurveCollection) popts :
  Forall2 (fun lc popt =>
             curve_fit (lc_time (nonnan_samples lc)) (lc_flux (nonnan_samples lc))
             = Ok popt) c popts ->
  exists s, stitch c = Ok s /\
    tot_flux s =
      concat (zip_with
                (fun lc popt =>
                   map (fun smp =>
                          (s_flux smp / linear_func (s_time smp) popt.1 popt.2)%float)
                       lc)
                c popts) /\
    forall i lc a b j smp,
      c !! i = Some lc -> popts !! i = Some (a, b) -> lc !! j = Some smp ->
      tot_flux s !! (length (concat (take i c)) + j)
      = Some (s_flux smp / (a * s_time smp + b))%float.
Proof.
  intros Hfit.
  assert (fits_of c popts) as Hfits.
  { unfold fits_of. eapply Forall2_impl; [exact Hfit|].
    intros lc popt Hlc. by rewrite fit_quarter_nonnan. }
  eexists. split; [by apply stitch_spec|]. simpl.
  assert (zip_with detrended c popts =
          zip_with (fun lc popt =>
                      map (fun smp =>
                             (s_flux smp / linear_func (s_time smp) popt.1 popt.2)%float)
                          lc) c popts) as Heq.
  { clear. revert popts. induction c as [|lc c IH]; intros [|p popts]; simpl;
      try done. by rewrite detrended_pointwise, IH. }
  split; [by rewrite Heq|].
  intros i lc a b j smp Hi Hp Hj.
  assert (length (concat (take i c))
          = length (concat (take i (zip_with detrended c popts)))) as ->.
  { symmetry. rewrite zip_with_take. apply length_concat_detrended.
    rewrite !length_take. apply Forall2_length in Hfit. lia. }
  eapply lookup_concat.
  - rewrite lookup_zip_with, Hi. simpl. rewrite Hp. simpl. reflexivity.
  - rewrite detrended_pointwise, map_fmap, list_lookup_fmap, Hj. reflexivity.
Qed.

(** C10. The flux-error array [stitch] returns is the concatenation over
    the quarters of raw flux error divided, cadence by cadence, by raw
    flux. *)
Theorem stitch_relative_flux_err (c : LightCurveCollection) popts :
  fits_of c popts ->
  exists s, stitch c = Ok s /\
    tot_flux_err s =
      concat (map (fun lc =>
                     map (fun smp => (s_flux_err smp / s_flux smp)%float) lc) c).
Proof.
  intros Hfit. eexists. split; [by apply stitch_spec|]. simpl.
  f_equal. apply map_ext. apply relative_error_pointwise.
Qed.

End StitchFacts.

(** ** The quality mask *)

Lemma np_broadcast_same {A B C} (f : A -> B -> C) a b :
  length a = length b -> np_broadcast f a b = Ok (zip_with f a b).
Proof. intros Hlen. unfold np_broadcast. by rewrite decide_True. Qed.

Lemma poor_quality_iff t f e q :
  poor_quality t f e q <-> good_sample t f e q = false.
Proof.
  unfold poor_quality, good_sample.
  rewrite !andb_false_iff, Z.eqb_neq. tauto.
Qed.

Lemma good_mask_same_length s :
  length (tot_flux s) = length (tot_time s) ->
  length (tot_flux_err s) = length (tot_time s) ->
  length (tot_qual s) = length (tot_time s) ->
  exists good, good_mask s = Ok good /\
    length good = length (tot_flux s) /\
    forall i t f e q,
      tot_time s !! i = Some t -> tot_flux s !! i = Some f ->
      tot_flux_err s !! i = Some e -> tot_qual s !! i = Some q ->
      good !! i = Some (good_sample t f e q).
Proof.
  intros Hf He Hq. unfold good_mask. unfold mbind, result_bind.
  rewrite np_broadcast_same by (rewrite !length_map; lia). simpl.
  rewrite np_broadcast_same
    by (rewrite !length_zip_with, !length_map; lia). simpl.
  rewrite np_broadcast_same
    by (rewrite !length_zip_with, !length_map; lia). simpl.
  rewrite np_broadcast_same
    by (rewrite !length_zip_with, !length_map; lia).
  eexists. split; [reflexivity|]. split.
  { rewrite !length_zip_with, !length_map. lia. }
  intros i t f e q Ht Hfl Her Hql.
  rewrite !lookup_zip_with, !map_fmap, !list_lookup_fmap.
  rewrite Ht, Hfl, Her, Hql. reflexivity.
Qed.

Lemma mask_poor_quality_same_length s :
  length (tot_flux s) = length (tot_time s) ->
  length (tot_flux_err s) = length (tot_time s) ->
  length (tot_qual s) = length (tot_time s) ->
  exists s', mask_poor_quality s = Ok s' /\
    tot_time s' = tot_time s /\ tot_flux_err s' = tot_flux_err s /\
    tot_qual s' = tot_qual s /\
    length (tot_flux s') = length (tot_flux s) /\
    forall i t f e q,
      tot_time s !! i = Some t -> tot_flux s !! i = Some f ->
      tot_flux_err s !! i = Some e -> tot_qual s !! i = Some q ->
      tot_flux s' !! i = Some (if good_sample t f e q then f else nan).
Proof.
  intros Hf He Hq.
  destruct (good_mask_same_length s Hf He Hq) as (good & Hgood & Hlen & Hat).
  unfold mask_poor_quality, mbind, result_bind. rewrite Hgood. simpl.
  unfold np_putmask. rewrite decide_True by (by rewrite length_map).
  simpl. eexists. split; [reflexivity|]. simpl. repeat split.
  { rewrite length_zip_with, length_map. lia. }
  intros i t f e q Ht Hfl Her Hql.
  rewrite lookup_zip_with, map_fmap, list_lookup_fmap.
  rewrite (Hat i t f e q) by done. simpl. rewrite Hfl. simpl.
  by destruct (good_sample t f e q).
Qed.

Section MaskFacts.
Context `{Scipy}.

(** C6. On every stitched curve the mask step returns; it leaves time (and
    flux error and quality) as they were, and replaces by NaN exactly the
    flux samples whose quality flag is nonzero, whose flux error is not
    strictly positive, or whose time, flux or flux error is not finite. *)
Theorem mask_poor_quality_exact (c : LightCurveCollection) s :
  stitch c = Ok s ->
  exists s', mask_poor_quality s = Ok s' /\
    tot_time s' = tot_time s /\
    length (tot_flux s') = length (tot_flux s) /\
    forall i t f e q,
      tot_time s !! i = Some t -> tot_flux s !! i = Some f ->
      tot_flux_err s !! i = Some e -> tot_qual s !! i = Some q ->
      (poor_quality t f e q -> tot_flux s' !! i = Some nan) /\
      (~ poor_quality t f e q -> tot_flux s' !! i = Some f).
Proof.
  intros Hs. destruct (stitch_lengths _ _ Hs) as (Hf & He & Hq).
  destruct (mask_poor_quality_same_length s Hf He Hq)
    as (s' & Hmask & Htime & _ & _ & Hlen & Hat).
  exists s'. repeat split; try done.
  - intros Hpoor. apply poor_quality_iff in Hpoor.
    rewrite (Hat i t f e q) by done. by rewrite Hpoor.
  - intros Hgood. rewrite poor_quality_iff in Hgood.
    rewrite (Hat i t f e q) by done.
    by destruct (good_sample t f e q).
Qed.

End MaskFacts.

(** ** Choosing the stars *)

Lemma np_take_in_range {A} (arr : list A) idx :
  Forall (fun i => i < length arr) idx ->
  exists l, np_take arr idx = Ok l /\
    Forall2 (fun i x => arr !! i = Some x) idx l.
Proof.
  intros Hidx. unfold np_take.
  assert (exists l, Forall2 (fun i x => arr !! i = Some x) idx l) as [l Hl].
  { induction Hidx as [|i idx Hi _ [l Hl]]; [by exists []|].
    destruct (lookup_lt_is_Some_2 arr i Hi) as [x Hx].
    exists (x :: l). by constructor. }
  exists l. split; [|done].
  by rewrite (proj2 (mapM_Some _ _ _) Hl).
Qed.

Lemma Forall2_lookup_elem {A} (arr : list A) idx l :
  Forall2 (fun i x => arr !! i = Some x) idx l -> Forall (fun x => In x arr) l.
Proof.
  induction 1 as [|i x idx l Hx _ IH]; constructor; [|done].
  apply list_elem_of_In. by eapply list_elem_of_lookup_2.
Qed.

Lemma Forall2_lookup_nth {A} (d : A) (arr : list A) idx l :
  Forall2 (fun i x => arr !! i = Some x) idx l ->
  l = map (fun i => nth i arr d) idx.
Proof.
  induction 1 as [|i x idx l Hx _ IH]; simpl; [done|].
  f_equal; [|done]. symmetry. by apply nth_lookup_Some.
Qed.

Lemma map_nth_seq {A} (d : A) (arr : list A) :
  map (fun i => nth i arr d) (seq 0 (length arr)) = arr.
Proof.
  apply list_eq. intros i. rewrite map_fmap, list_lookup_fmap.
  destruct (decide (i < length arr)) as [Hi|Hi].
  - rewrite lookup_seq_lt by done. simpl.
    destruct (lookup_lt_is_Some_2 arr i Hi) as [x Hx].
    rewrite Hx. f_equal. by apply nth_lookup_Some.
  - rewrite lookup_seq_ge, lookup_ge_None_2 by lia. done.
Qed.

(** Indexing an array by a rearrangement of its positions rearranges it. *)
Lemma np_take_permutation (arr : list Z) p :
  Permutation p (seq 0 (length arr)) ->
  exists l, np_take arr p = Ok l /\ Permutation l arr.
Proof.
  intros Hp.
  assert (Forall (fun i => i < length arr) p) as Hrange.
  { eapply Permutation_Forall; [symmetry; exact Hp|].
    apply Forall_forall. intros i Hi. apply elem_of_seq in Hi. lia. }
  destruct (np_take_in_range arr p Hrange) as (l & Hl & Hat).
  exists l. split; [done|].
  rewrite (Forall2_lookup_nth 0%Z arr p l Hat).
  etransitivity; [apply Permutation_map, Hp|].
  by rewrite map_nth_seq.
Qed.

Lemma kepids_with_row d data id :
  In id (kepids_with d data) ->
  exists r, In r data /\ koi_disposition r = d /\ kepid r = id.
Proof.
  unfold kepids_with. rewrite in_map_iff. intros (r & Hid & Hr).
  apply list_elem_of_In, list_elem_of_filter in Hr as [Hd Hr].
  exists r. by rewrite <- list_elem_of_In.
Qed.

Section WorldFacts.
Context `{Scipy} `{NumpyRandom} `{Lightkurve} `{PyFormat}.

Lemma frames_bind {A B} (m : M A) (k : A -> M B) :
  frames_files m -> (forall a, frames_files (k a)) -> frames_files (M_bind m k).
Proof.
  intros Hm Hk w. unfold M_bind. specialize (Hm w).
  destruct (m w) as [[a|e] w1]; simpl in *; [|done].
  by rewrite Hk.
Qed.

Lemma frames_lift {A} (r : result A) : frames_files (lift r).
Proof. by intros w. Qed.

Lemma frames_ret {A} (a : A) : frames_files (M_ret a).
Proof. by intros w. Qed.

Lemma frames_read_koi : frames_files read_koi.
Proof. intros w. unfold read_koi. by destruct (w_koi w). Qed.

Lemma frames_choice a size : frames_files (np_random_choice a size).
Proof.
  intros w. unfold np_random_choice. repeat case_match; done.
Qed.

Lemma frames_permutation n : frames_files (np_random_permutation n).
Proof. intros w. unfold np_random_permutation. by case_match. Qed.

Lemma frames_download star : frames_files (search_download star).
Proof. intros w. unfold search_download. by case_match. Qed.

Lemma frames_select_ids n_curves pct_transit :
  frames_files (select_ids n_curves pct_transit).
Proof.
  unfold select_ids.
  repeat first
    [ apply frames_bind; [|intros ?]
    | apply frames_read_koi | apply frames_choice | apply frames_permutation
    | apply frames_lift | apply frames_ret ].
Qed.

Lemma np_random_choice_spec a size w :
  lawful_random ->
  (0 <= size)%Z -> (size ≠ 0%Z -> a ≠ []) ->
  exists l,
    np_random_choice a size w =
      (Ok l, set_rng (randint (length a) (Z.to_nat size) (w_rng w)).2 w) /\
    Forall2 (fun i x => a !! i = Some x)
            (randint (length a) (Z.to_nat size) (w_rng w)).1 l /\
    Z.of_nat (length l) = size /\ Forall (fun x => In x a) l.
Proof.
  intros (Hint & Hzero & _) Hsize Ha. unfold np_random_choice.
  rewrite (proj2 (Z.ltb_ge size 0)) by done.
  destruct (decide (size = 0%Z)) as [->|Hne].
  - simpl. rewrite andb_false_r. change (Z.to_nat 0) with 0%nat.
    specialize (Hzero (length a) (w_rng w)).
    destruct (randint (length a) 0 (w_rng w)) as [idx g]. simpl in *.
    subst idx. exists []. by repeat split.
  - rewrite bool_decide_eq_false_2 by auto. simpl.
    assert (0 < length a) as Hpos.
    { specialize (Ha Hne). destruct a; simpl; [done|lia]. }
    destruct (Hint (length a) (Z.to_nat size) (w_rng w) Hpos) as [Hlen Hrange].
    destruct (randint (length a) (Z.to_nat size) (w_rng w)) as [idx g].
    simpl in *.
    destruct (np_take_in_range a idx Hrange) as (l & -> & Hat).
    exists l. repeat split.
    + done.
    + apply Forall2_length in Hat. lia.
    + by eapply Forall2_lookup_elem.
Qed.

(** C7. With the archive table read and the two sample sizes
    [int(n_curves*(1-pct_transit/100))] and [int(n_curves*(pct_transit/100))]
    computed, the ids processed are a rearrangement of that many ids of
    FALSE POSITIVE rows followed by that many ids of CONFIRMED rows.  The
    sample and the order are the generator's: the FALSE POSITIVE ids are the
    ones at the positions of its first draw, the CONFIRMED ids the ones at
    the positions of its second draw, and the processed list is the two
    samples, one after the other, read in the order of the permutation it
    gives next. *)
Theorem select_ids_counts n_curves pct_transit w data k_n k_t :
  lawful_random ->
  w_koi w = Some data ->
  py_int (py_float n_curves * (1 - pct_transit / 100))%float = Ok k_n ->
  py_int (py_float n_curves * (pct_transit / 100))%float = Ok k_t ->
  (0 <= k_n)%Z -> (0 <= k_t)%Z ->
  (k_n ≠ 0%Z -> kepids_with "FALSE POSITIVE" data ≠ []) ->
  (k_t ≠ 0%Z -> kepids_with "CONFIRMED" data ≠ []) ->
  exists all_ids nontransit_ids transit_ids w',
    select_ids n_curves pct_transit w = (Ok (all_ids, transit_ids), w') /\
    Z.of_nat (length transit_ids) = k_t /\
    Forall (fun id => exists r, In r data /\
                        koi_disposition r = "CONFIRMED" /\ kepid r = id)
           transit_ids /\
    Z.of_nat (length nontransit_ids) = k_n /\
    Forall (fun id => exists r, In r data /\
                        koi_disposition r = "FALSE POSITIVE" /\ kepid r = id)
           nontransit_ids /\
    Permutation all_ids (nontransit_ids ++ transit_ids) /\
    let draw_n := randint (length (kepids_with "FALSE POSITIVE" data))
                          (Z.to_nat k_n) (w_rng w) in
    let draw_t := randint (length (kepids_with "CONFIRMED" data))
                          (Z.to_nat k_t) draw_n.2 in
    let draw_p := permutation (length (nontransit_ids ++ transit_ids))
                              draw_t.2 in
    Forall2 (fun i id => kepids_with "FALSE POSITIVE" data !! i = Some id)
            draw_n.1 nontransit_ids /\
    Forall2 (fun i id => kepids_with "CONFIRMED" data !! i = Some id)
            draw_t.1 transit_ids /\
    Forall2 (fun i id => (nontransit_ids ++ transit_ids) !! i = Some id)
            draw_p.1 all_ids /\
    w' = set_rng draw_p.2 w.
Proof.
  intros Hlaw Hdata Hkn Hkt Hn0 Ht0 Hnpop Htpop.
  unfold select_ids, mbind, M_mbind, M_bind, read_koi.
  rewrite Hdata. unfold n_nontransit, n_transit, lift. rewrite Hkn.
  destruct (np_random_choice_spec (kepids_with "FALSE POSITIVE" data) k_n w
              Hlaw Hn0 Hnpop) as (nontransit_ids & -> & Hnat & Hnlen & Hnin).
  rewrite Hkt.
  match goal with |- context [np_random_choice _ k_t ?w1] =>
    destruct (np_random_choice_spec (kepids_with "CONFIRMED" data) k_t w1
                Hlaw Ht0 Htpop) as (transit_ids & -> & Htat & Htlen & Htin)
  end.
  simpl in Htat.
  set (draw_n := randint (length (kepids_with "FALSE POSITIVE" data))
                         (Z.to_nat k_n) (w_rng w)) in *.
  set (draw_t := randint (length (kepids_with "CONFIRMED" data))
                         (Z.to_nat k_t) draw_n.2) in *.
  unfold np_random_permutation. simpl.
  destruct Hlaw as (_ & _ & Hperm).
  specialize (Hperm (length (nontransit_ids ++ transit_ids)) draw_t.2).
  fold draw_n. fold draw_t.
  destruct (permutation (length (nontransit_ids ++ transit_ids)) draw_t.2)
    as [p g3] eqn:Hdraw.
  simpl in Hperm.
  assert (Forall (fun i => i < length (nontransit_ids ++ transit_ids)) p)
    as Hrange.
  { eapply Permutation_Forall; [symmetry; exact Hperm|].
    apply Forall_forall. intros i Hi. apply elem_of_seq in Hi. lia. }
  destruct (np_take_in_range _ p Hrange) as (all_ids & Htake & Hat).
  destruct (np_take_permutation _ _ Hperm) as (all_ids' & Htake' & Hall).
  rewrite Htake in Htake'. injection Htake' as <-.
  rewrite Htake.
  eexists all_ids, nontransit_ids, transit_ids, _.
  split; [reflexivity|]. repeat split; try done.
  - eapply Forall_impl; [exact Htin|]. intros id. apply kepids_with_row.
  - eapply Forall_impl; [exact Hnin|]. intros id. apply kepids_with_row.
  - by rewrite Hdraw.
  - by rewrite Hdraw.
Qed.

End WorldFacts.

(** ** Forcing a curve to [n_timesteps] values *)

Lemma np_linspace_length start stop num :
  (0 <= num)%Z ->
  exists l, np_linspace start stop num = Ok l /\ length l = Z.to_nat num.
Proof.
  intros Hnum. unfold np_linspace.
  rewrite (proj2 (Z.ltb_ge num 0)) by done.
  eexists. split; [reflexivity|]. by rewrite length_map, length_seq.
Qed.

Lemma np_interp_length x xp fp :
  xp ≠ [] -> length fp = length xp ->
  np_interp x xp fp = Ok (map (interp_point xp fp) x).
Proof.
  intros Hxp Hlen. unfold np_interp. destruct xp; [done|].
  by rewrite decide_True.
Qed.

Lemma resample_length n_timesteps fp :
  (0 <= n_timesteps)%Z -> fp ≠ [] ->
  exists l, resample n_timesteps fp = Ok l /\ length l = Z.to_nat n_timesteps.
Proof.
  intros Hn Hfp. unfold resample, mbind, result_bind.
  destruct (np_linspace_length 0 (py_float (n_timesteps - 1)) n_timesteps Hn)
    as (x & -> & Hx). simpl.
  destruct (np_linspace_length 0 (py_float (n_timesteps - 1))
              (Z.of_nat (length fp)) (Nat2Z.is_nonneg _)) as (xp & -> & Hxp).
  simpl. rewrite Nat2Z.id in Hxp.
  rewrite np_interp_length; [|destruct xp, fp; done|done].
  eexists. split; [reflexivity|]. by rewrite length_map.
Qed.

Lemma py_slice0_nonneg {A} (arr : list A) n :
  (0 <= n)%Z -> py_slice0 arr n = take (Z.to_nat n) arr.
Proof. intros Hn. unfold py_slice0. by rewrite (proj2 (Z.leb_le 0 n)). Qed.

Lemma downsize_interpolate n_timesteps flux time :
  (0 <= n_timesteps)%Z -> flux ≠ [] -> time ≠ [] ->
  exists flux' time',
    downsize "interpolate" n_timesteps flux time = Ok (flux', time') /\
    length flux' = Z.to_nat n_timesteps /\ length time' = Z.to_nat n_timesteps.
Proof.
  intros Hn Hflux Htime. unfold downsize, mbind, result_bind.
  rewrite decide_True by done.
  destruct (resample_length n_timesteps flux Hn Hflux) as (flux' & -> & Hf).
  destruct (resample_length n_timesteps time Hn Htime) as (time' & -> & Ht).
  simpl. by exists flux', time'.
Qed.

Lemma downsize_truncate n_timesteps flux time :
  (0 <= n_timesteps)%Z ->
  downsize "truncate" n_timesteps flux time
  = Ok (take (Z.to_nat n_timesteps) flux, take (Z.to_nat n_timesteps) time).
Proof.
  intros Hn. unfold downsize, mbind, result_bind. simpl.
  by rewrite !py_slice0_nonneg.
Qed.

(** The resizing step on its own, for [n_timesteps >= 0]: 'interpolate' turns
    a non-empty flux and time into exactly [n_timesteps] values each;
    'truncate' keeps the first [n_timesteps] values, so it reaches
    [n_timesteps] values only on a curve that has at least that many. *)
Lemma downsize_lengths downsize_method n_timesteps flux time :
  (0 <= n_timesteps)%Z ->
  (downsize_method = "interpolate" /\ flux ≠ [] /\ time ≠ []) \/
  (downsize_method = "truncate" /\
   Z.to_nat n_timesteps <= length flux /\ Z.to_nat n_timesteps <= length time) ->
  exists flux' time',
    downsize downsize_method n_timesteps flux time = Ok (flux', time') /\
    length flux' = Z.to_nat n_timesteps /\ length time' = Z.to_nat n_timesteps.
Proof.
  intros Hn [(-> & Hflux & Htime)|(-> & Hflux & Htime)].
  - by apply downsize_interpolate.
  - rewrite downsize_truncate by done.
    eexists _, _. split; [reflexivity|]. by rewrite !length_take_le.
Qed.

(** ** collect_curves *)

Lemma np_contains_builtin name arr :
  np_contains (PyBuiltinFunction name) arr = false.
Proof. unfold np_contains. by induction arr. Qed.

Section CollectFacts.
Context `{Scipy} `{NumpyRandom} `{Lightkurve} `{PyFormat}.

Lemma M_bind_Ok_inv {A B} (m : M A) (k : A -> M B) w b w' :
  M_bind m k w = (Ok b, w') ->
  exists a w1, m w = (Ok a, w1) /\ k a w1 = (Ok b, w').
Proof.
  unfold M_bind. destruct (m w) as [[a|e] w1]; [eauto | discriminate].
Qed.

Lemma lift_Ok_inv {A} (r : result A) w a w' :
  lift r w = (Ok a, w') -> r = Ok a /\ w' = w.
Proof. unfold lift. by intros [= -> ->]. Qed.

(** Every label [collect_curves] stores is the one for "no transit". *)
Lemma curves_loop_labels n_timesteps downsize_method transit_ids all_ids :
  forall i a w a' w',
    curves_loop n_timesteps downsize_method transit_ids all_ids i a w
    = (Ok a', w') ->
    Forall (fun l => l = 0%float) (all_labels a) ->
    Forall (fun l => l = 0%float) (all_labels a').
Proof.
  induction all_ids as [|star rest IH]; intros i a w a' w' Hrun Hzero.
  - by injection Hrun as <- <-.
  - simpl in Hrun. unfold mbind, M_mbind in Hrun.
    apply M_bind_Ok_inv in Hrun as (curve & w1 & _ & Hrun).
    apply M_bind_Ok_inv in Hrun as (s & w2 & _ & Hrun).
    apply M_bind_Ok_inv in Hrun as (s' & w3 & _ & Hrun).
    apply M_bind_Ok_inv in Hrun as ([flux time] & w4 & _ & Hrun).
    apply M_bind_Ok_inv in Hrun as (times & w5 & _ & Hrun).
    apply M_bind_Ok_inv in Hrun as (curves & w6 & _ & Hrun).
    apply IH in Hrun; [done|]. simpl.
    rewrite np_contains_builtin. by apply Forall_insert.
Qed.

(** C1, what the code does instead.  Whatever stars were drawn, every label
    [collect_curves] returns is 0: line 126 tests the built-in [id], not the
    star, for membership in [transit_ids]. *)
Theorem collect_curves_labels_all_zero
    n_curves n_timesteps downsize_method pct_transit w a w' :
  collect_curves n_curves n_timesteps downsize_method pct_transit w = (Ok a, w') ->
  Forall (fun l => l = 0%float) (all_labels a).
Proof.
  unfold collect_curves, mbind, M_mbind. intros Hrun.
  apply M_bind_Ok_inv in Hrun as ([all_ids transit_ids] & w1 & _ & Hrun).
  apply M_bind_Ok_inv in Hrun as (curves & w2 & _ & Hrun).
  apply M_bind_Ok_inv in Hrun as (times & w3 & _ & Hrun).
  apply M_bind_Ok_inv in Hrun as (labels & w4 & Hlabels & Hrun).
  apply lift_Ok_inv in Hlabels as [Hlabels _].
  eapply curves_loop_labels; [exact Hrun|]. simpl.
  unfold np_zeros in Hlabels. case_match; simplify_eq.
  apply Forall_replicate. reflexivity.
Qed.

Lemma np_setrow_width width arr i v arr' :
  np_setrow width arr i v = Ok arr' ->
  Forall (fun r => length r = width) arr ->
  Forall (fun r => length r = width) arr'.
Proof.
  unfold np_setrow. intros Hset Harr. case_decide as Hlen.
  - injection Hset as <-. by apply Forall_insert.
  - destruct v as [|x [|??]]; simplify_eq.
    apply Forall_insert; [done|]. apply length_replicate.
Qed.

Lemma curves_loop_rows n_timesteps downsize_method transit_ids all_ids :
  forall i a w a' w',
    curves_loop n_timesteps downsize_method transit_ids all_ids i a w
    = (Ok a', w') ->
    Forall (fun r => length r = Z.to_nat n_timesteps) (all_curves a) ->
    Forall (fun r => length r = Z.to_nat n_timesteps) (all_times a) ->
    Forall (fun r => length r = Z.to_nat n_timesteps) (all_curves a') /\
    Forall (fun r => length r = Z.to_nat n_timesteps) (all_times a').
Proof.
  induction all_ids as [|star rest IH]; intros i a w a' w' Hrun Hc Ht.
  - by injection Hrun as <- <-.
  - simpl in Hrun. unfold mbind, M_mbind in Hrun.
    apply M_bind_Ok_inv in Hrun as (curve & w1 & _ & Hrun).
    apply M_bind_Ok_inv in Hrun as (s & w2 & _ & Hrun).
    apply M_bind_Ok_inv in Hrun as (s' & w3 & _ & Hrun).
    apply M_bind_Ok_inv in Hrun as ([flux time] & w4 & _ & Hrun).
    apply M_bind_Ok_inv in Hrun as (times & w5 & Htimes & Hrun).
    apply M_bind_Ok_inv in Hrun as (curves & w6 & Hcurves & Hrun).
    apply lift_Ok_inv in Htimes as [Htimes _].
    apply lift_Ok_inv in Hcurves as [Hcurves _].
    apply IH in Hrun; [done|simpl..].
    + by eapply np_setrow_width.
    + by eapply np_setrow_width.
Qed.

(** Every row of the two arrays [collect_curves] returns has [n_timesteps]
    values, whatever [downsize_method] is: a curve the resizing leaves at
    another length cannot be stored (a single value apart, which fills the
    row). *)
Theorem collect_curves_row_width
    n_curves n_timesteps downsize_method pct_transit w a w' :
  collect_curves n_curves n_timesteps downsize_method pct_transit w = (Ok a, w') ->
  Forall (fun r => length r = Z.to_nat n_timesteps) (all_curves a) /\
  Forall (fun r => length r = Z.to_nat n_timesteps) (all_times a).
Proof.
  unfold collect_curves, mbind, M_mbind. intros Hrun.
  apply M_bind_Ok_inv in Hrun as ([all_ids transit_ids] & w1 & _ & Hrun).
  apply M_bind_Ok_inv in Hrun as (curves & w2 & Hcurves & Hrun).
  apply M_bind_Ok_inv in Hrun as (times & w3 & Htimes & Hrun).
  apply M_bind_Ok_inv in Hrun as (labels & w4 & _ & Hrun).
  apply lift_Ok_inv in Hcurves as [Hcurves _].
  apply lift_Ok_inv in Htimes as [Htimes _].
  assert (forall rows arr, np_zeros2 rows n_timesteps = Ok arr ->
            Forall (fun r => length r = Z.to_nat n_timesteps) arr) as Hzeros.
  { intros rows arr. unfold np_zeros2, np_zeros, mbind, result_bind.
    case_match; simpl; [done|]. intros [= <-].
    apply Forall_replicate, length_replicate. }
  eapply curves_loop_rows; [exact Hrun|simpl; eauto..].
Qed.

End CollectFacts.

(** ** The file check of collect_curves_tofiles *)

Section FileFacts.
Context `{NumpyRandom} `{Lightkurve} `{PyFormat}.

Lemma filepath_of_tag_ne savepath n_timesteps pct_transit c1 t1 c2 t2 :
  c1 ≠ c2 ->
  filepath_of savepath (String c1 t1) n_timesteps pct_transit
  ≠ filepath_of savepath (String c2 t2) n_timesteps pct_transit.
Proof.
  intros Hc Heq. unfold filepath_of in Heq.
  apply (inj (String.app savepath)), (inj (String.app "/")) in Heq.
  change (String c1 (t1 +:+ "_all_" +:+ pretty n_timesteps +:+ "_"
                        +:+ str_float pct_transit +:+ ".csv")
          = String c2 (t2 +:+ "_all_" +:+ pretty n_timesteps +:+ "_"
                          +:+ str_float pct_transit +:+ ".csv")) in Heq.
  congruence.
Qed.

Lemma file_rows_touch path w q :
  file_rows (w_fs (touch_file path w)) q = file_rows (w_fs w) q.
Proof.
  unfold touch_file, file_rows. destruct (w_fs w !! path) eqn:E; [done|].
  simpl. destruct (decide (path = q)) as [->|Hne].
  - by rewrite lookup_insert_eq, E.
  - by rewrite lookup_insert_ne.
Qed.

Lemma touch_file_exists path w : is_Some (w_fs (touch_file path w) !! path).
Proof.
  unfold touch_file. destruct (w_fs w !! path) eqn:E; [by rewrite E|].
  simpl. by rewrite lookup_insert_eq.
Qed.

Lemma touch_file_keeps path w q :
  is_Some (w_fs w !! q) -> is_Some (w_fs (touch_file path w) !! q).
Proof.
  unfold touch_file. destruct (w_fs w !! path) eqn:E; [done|].
  simpl. intros Hq. rewrite lookup_insert_ne; [done|]. intros ->.
  rewrite E in Hq. by destruct Hq.
Qed.

Lemma records_touch path w q l :
  path ≠ q -> records (w_fs w) q l -> records (w_fs (touch_file path w)) q l.
Proof.
  intros Hne. unfold touch_file, records.
  destruct (w_fs w !! path); [done|]. simpl. by rewrite lookup_insert_ne.
Qed.

(** One round of the loop over the tags. *)
Lemma dirs_touch path w : w_dirs (touch_file path w) = w_dirs w.
Proof. unfold touch_file. by destruct (w_fs w !! path). Qed.

Lemma check_files_step savepath n_timesteps pct_transit tag rest fps fls w l :
  savepath ∈ w_dirs w ->
  records (w_fs w) (filepath_of savepath tag n_timesteps pct_transit) l ->
  check_files savepath n_timesteps pct_transit (tag :: rest) fps fls w
  = check_files savepath n_timesteps pct_transit rest
      (fps ++ [filepath_of savepath tag n_timesteps pct_transit]) (fls ++ [l])
      (touch_file (filepath_of savepath tag n_timesteps pct_transit) w).
Proof.
  intros Hdir Hrec. simpl.
  unfold mbind, M_mbind, M_bind, path_exists, csv_len, create_file,
    touch_file, file_rows, records in *.
  destruct (w_fs w !! filepath_of savepath tag n_timesteps pct_transit)
    as [rows|] eqn:E.
  - destruct Hrec as (n & Hn & ->).
    rewrite bool_decide_eq_true_2 by eauto. simpl. rewrite E. simpl.
    by rewrite Hn.
  - subst l. rewrite bool_decide_eq_false_2 by (by intros [? ?]). simpl.
    by rewrite bool_decide_eq_true_2.
Qed.

(** A missing file in a directory that does not exist stops the check. *)
Lemma check_files_no_directory savepath n_timesteps pct_transit tag rest fps
    fls w :
  savepath ∉ w_dirs w ->
  w_fs w !! filepath_of savepath tag n_timesteps pct_transit = None ->
  check_files savepath n_timesteps pct_transit (tag :: rest) fps fls w
  = (Raise (FileNotFoundError
              (filepath_of savepath tag n_timesteps pct_transit)), w).
Proof.
  intros Hdir Hnone. simpl.
  unfold mbind, M_mbind, M_bind, path_exists, create_file.
  rewrite bool_decide_eq_false_2 by (rewrite Hnone; by intros [? ?]). simpl.
  by rewrite bool_decide_eq_false_2.
Qed.

(** A file pandas cannot read back stops the check. *)
Lemma check_files_unreadable savepath n_timesteps pct_transit tag rest fps fls
    w rows e :
  w_fs w !! filepath_of savepath tag n_timesteps pct_transit = Some rows ->
  read_csv_len rows = Raise e ->
  check_files savepath n_timesteps pct_transit (tag :: rest) fps fls w
  = (Raise e, w).
Proof.
  intros Hrows He. simpl.
  unfold mbind, M_mbind, M_bind, path_exists, csv_len, file_rows.
  rewrite bool_decide_eq_true_2 by (rewrite Hrows; eauto). simpl.
  rewrite Hrows. simpl. by rewrite He.
Qed.

Lemma all_same_three l0 l1 l2 :
  all_same [l0; l1; l2] = true <->
  (l0 = LenList0 /\ l1 = LenList0 /\ l2 = LenList0) \/
  (exists k, l0 = LenInt k /\ l1 = LenInt k /\ l2 = LenInt k).
Proof.
  split.
  - destruct l0 as [|k0], l1 as [|k1], l2 as [|k2]; simpl;
      rewrite ?Nat.eqb_refl, ?andb_false_r; try done.
    + by left.
    + destruct (Nat.eqb_spec k1 k0), (Nat.eqb_spec k2 k0); simpl; try done.
      intros _. right. exists k0. by subst.
  - intros [(-> & -> & ->)|(k & -> & -> & ->)]; simpl; [done|].
    by rewrite Nat.eqb_refl.
Qed.

(** C8, as the code has it.  In a directory that exists, when every one of
    the three files that exists is read back by pandas, the check leaves all
    three files in place with
    the rows they had, returns their paths when none existed or when all
    three hold one row count, and otherwise (row counts that differ, or some
    files present and some not) raises the exception naming the three
    files and what was recorded for each. *)
Theorem prepare_files_outcome savepath n_timesteps pct_transit w l0 l1 l2 :
  let p0 := filepath_of savepath "flux" n_timesteps pct_transit in
  let p1 := filepath_of savepath "time" n_timesteps pct_transit in
  let p2 := filepath_of savepath "labels" n_timesteps pct_transit in
  savepath ∈ w_dirs w ->
  records (w_fs w) p0 l0 -> records (w_fs w) p1 l1 -> records (w_fs w) p2 l2 ->
  exists w',
    prepare_files savepath n_timesteps pct_transit w
    = (if all_same [l0; l1; l2] then Ok [p0; p1; p2]
       else Raise (DifferentRows [p0; p1; p2] [l0; l1; l2]), w') /\
    (is_Some (w_fs w' !! p0) /\ is_Some (w_fs w' !! p1) /\
     is_Some (w_fs w' !! p2)) /\
    (forall path, file_rows (w_fs w') path = file_rows (w_fs w) path) /\
    (all_same [l0; l1; l2] = true <->
     (l0 = LenList0 /\ l1 = LenList0 /\ l2 = LenList0) \/
     (exists k, l0 = LenInt k /\ l1 = LenInt k /\ l2 = LenInt k)).
Proof.
  intros p0 p1 p2 Hdir H0' H1' H2'.
  assert (p0 ≠ p1) as H01 by (by apply filepath_of_tag_ne).
  assert (p0 ≠ p2) as H02 by (by apply filepath_of_tag_ne).
  assert (p1 ≠ p2) as H12 by (by apply filepath_of_tag_ne).
  exists (touch_file p2 (touch_file p1 (touch_file p0 w))).
  split; [|split; [|split]].
  - unfold prepare_files, mbind, M_mbind, M_bind.
    rewrite (check_files_step _ _ _ _ _ _ _ _ l0) by done.
    rewrite (check_files_step _ _ _ _ _ _ _ _ l1);
      [|by rewrite dirs_touch|by apply records_touch].
    rewrite (check_files_step _ _ _ _ _ _ _ _ l2);
      [|by rewrite !dirs_touch
       |apply records_touch; [done|]; by apply records_touch].
    simpl check_files. unfold mret, M_mret, M_ret. cbn [app].
    fold p0 p1 p2. by destruct (all_same [l0; l1; l2]).
  - split; [|split].
    + do 2 apply touch_file_keeps. apply touch_file_exists.
    + apply touch_file_keeps, touch_file_exists.
    + apply touch_file_exists.
  - intros path. by rewrite !file_rows_touch.
  - apply all_same_three.
Qed.

(** The check leaves the rows of every file as they were, whatever it
    returns. *)
Lemma frames_rows_check savepath n_timesteps pct_transit tags :
  forall fps fls w path,
    file_rows (w_fs (check_files savepath n_timesteps pct_transit tags fps fls w).2)
              path
    = file_rows (w_fs w) path.
Proof.
  induction tags as [|tag rest IH]; intros fps fls w path; [done|].
  simpl. unfold mbind, M_mbind, M_bind, path_exists, create_file, csv_len.
  destruct (bool_decide _) eqn:E; simpl.
  - destruct (read_csv_len _); [apply IH|done].
  - destruct (bool_decide (savepath ∈ w_dirs w)); [|done].
    rewrite IH. simpl. apply bool_decide_eq_false_1 in E.
    unfold file_rows.
    destruct (decide (filepath_of savepath tag n_timesteps pct_transit = path))
      as [<-|Hne].
    + rewrite lookup_insert_eq.
      destruct (w_fs w !! _) eqn:E'; [|done]. destruct E. eauto.
    + by rewrite lookup_insert_ne.
Qed.

Lemma frames_rows_prepare savepath n_timesteps pct_transit w path :
  file_rows (w_fs (prepare_files savepath n_timesteps pct_transit w).2) path
  = file_rows (w_fs w) path.
Proof.
  unfold prepare_files, mbind, M_mbind, M_bind.
  pose proof (frames_rows_check savepath n_timesteps pct_transit
                ["flux"; "time"; "labels"] [] [] w path) as Hcheck.
  destruct (check_files _ _ _ _ _ _ _) as [[[fps fls]|e] w1]; simpl in *;
    [|done].
  by destruct (all_same fls).
Qed.

(** When the check passes, it returns the three paths. *)
Lemma check_files_paths savepath n_timesteps pct_transit tags :
  forall fps fls w fps' fls' w',
    check_files savepath n_timesteps pct_transit tags fps fls w
    = (Ok (fps', fls'), w') ->
    fps' = fps ++ map (fun tag => filepath_of savepath tag n_timesteps pct_transit)
                      tags.
Proof.
  induction tags as [|tag rest IH]; intros fps fls w fps' fls' w' Hrun.
  - injection Hrun as <- _ _. by rewrite app_nil_r.
  - simpl in Hrun. unfold mbind, M_mbind, M_bind, path_exists, create_file,
      csv_len in Hrun.
    destruct (bool_decide _); simpl in Hrun.
    + destruct (read_csv_len _); [|done].
      apply IH in Hrun. by rewrite Hrun, <- app_assoc.
    + destruct (bool_decide (savepath ∈ w_dirs w)); [|done].
      apply IH in Hrun. by rewrite Hrun, <- app_assoc.
Qed.

Lemma prepare_files_paths savepath n_timesteps pct_transit w filepaths w' :
  prepare_files savepath n_timesteps pct_transit w = (Ok filepaths, w') ->
  filepaths = [ filepath_of savepath "flux" n_timesteps pct_transit;
                filepath_of savepath "time" n_timesteps pct_transit;
                filepath_of savepath "labels" n_timesteps pct_transit ].
Proof.
  unfold prepare_files, mbind, M_mbind, M_bind. intros Hrun.
  destruct (check_files _ _ _ _ _ _ _) as [[[fps fls]|e] w1] eqn:Hcheck;
    [|done].
  apply check_files_paths in Hcheck. simpl in Hcheck. subst fps.
  destruct (all_same fls); simpl in Hrun; [|done].
  by injection Hrun as <- _.
Qed.

End FileFacts.

(** ** The download loop of collect_curves_tofiles *)

Section TofilesFacts.
Context `{Scipy} `{NumpyRandom} `{Lightkurve} `{PyFormat}.

Lemma writes_bind {A} p0 p1 p2 label (m : M A) (k : A -> M unit) :
  frames_files m -> (forall a, writes_star p0 p1 p2 label (k a)) ->
  writes_star p0 p1 p2 label (M_bind m k).
Proof.
  intros Hm Hk w. unfold M_bind. specialize (Hm w).
  destruct (m w) as [[a|e] w1]; simpl in *; [|done].
  specialize (Hk a w1). destruct (k a w1) as [[[]|e] w2].
  - unfold appended_star in *. by rewrite <- Hm.
  - by rewrite Hk.
Qed.

Lemma file_rows_writerow path r w q :
  file_rows (w_fs (writerow path r w).2) q
  = if decide (path = q) then file_rows (w_fs w) q ++ [r]
    else file_rows (w_fs w) q.
Proof.
  unfold writerow, file_rows at 1. simpl. case_decide as Hq.
  - subst q. by rewrite lookup_insert_eq.
  - by rewrite lookup_insert_ne.
Qed.

Lemma write_rows_appends p0 p1 p2 flux time label :
  p0 ≠ p1 -> p0 ≠ p2 -> p1 ≠ p2 ->
  writes_star p0 p1 p2 label (write_rows [p0; p1; p2] flux time label).
Proof.
  intros H01 H02 H12 w. unfold write_rows, mbind, M_mbind, M_bind.
  change ([p0; p1; p2] !!! 0) with p0. change ([p0; p1; p2] !!! 1) with p1.
  change ([p0; p1; p2] !!! 2) with p2.
  destruct (writerow p0 (map CFloat flux) w) as [[[]|e] w1] eqn:E0; [|done].
  destruct (writerow p1 (map CFloat time) w1) as [[[]|e] w2] eqn:E1; [|done].
  destruct (writerow p2 [CInt label] w2) as [[[]|e] w3] eqn:E2; [|done].
  exists (map CFloat flux), (map CFloat time).
  pose proof (file_rows_writerow p0 (map CFloat flux) w) as R0.
  pose proof (file_rows_writerow p1 (map CFloat time) w1) as R1.
  pose proof (file_rows_writerow p2 [CInt label] w2) as R2.
  rewrite E0 in R0. rewrite E1 in R1. rewrite E2 in R2. simpl in *.
  repeat split.
  - rewrite R2, decide_False, R1, decide_False, R0, decide_True by done. done.
  - rewrite R2, decide_False, R1, decide_True, R0, decide_False by done. done.
  - rewrite R2, decide_True, R1, decide_False, R0, decide_False by done. done.
Qed.

(** One pass through the body of the loop. *)
Lemma tofiles_star_writes globals n_timesteps downsize_method phase_fold smooth
    p0 p1 p2 transit_ids star :
  p0 ≠ p1 -> p0 ≠ p2 -> p1 ≠ p2 ->
  writes_star p0 p1 p2 (tofiles_label transit_ids star)
    (tofiles_star globals n_timesteps downsize_method phase_fold smooth
                  [p0; p1; p2] transit_ids star).
Proof.
  intros H01 H02 H12. unfold tofiles_star, mbind, M_mbind.
  fold (tofiles_label transit_ids star).
  apply writes_bind; [apply frames_download|]. intros curve.
  apply writes_bind; [apply frames_lift|]. intros stitch_quarters.
  apply writes_bind; [apply frames_lift|]. intros s.
  apply writes_bind.
  { destruct smooth; [|apply frames_ret].
    repeat (apply frames_bind; [apply frames_lift|intros ?]).
    apply frames_lift. }
  intros flux. destruct phase_fold.
  - apply writes_bind; [apply frames_lift|]. intros [folded_time folded_flux].
    apply writes_bind; [apply frames_lift|]. intros binned_statistic.
    apply writes_bind; [apply frames_lift|]. intros [binned bin_edges].
    apply writes_bind; [apply frames_lift|]. intros medfilt.
    apply writes_bind; [apply frames_lift|]. intros folded_smoothed_flux.
    by apply write_rows_appends.
  - apply writes_bind; [apply frames_lift|]. intros s'.
    apply writes_bind; [apply frames_lift|]. intros [flux' time'].
    by apply write_rows_appends.
Qed.

(** The loop: the files grow by one row per star carried through, and an
    exception leaves what was written. *)
Lemma tofiles_loop_rows globals n_timesteps downsize_method phase_fold smooth
    p0 p1 p2 transit_ids all_ids :
  p0 ≠ p1 -> p0 ≠ p2 -> p1 ≠ p2 ->
  forall w r w',
    tofiles_loop globals n_timesteps downsize_method phase_fold smooth
                 [p0; p1; p2] transit_ids all_ids w = (r, w') ->
    let k := stars_done globals n_timesteps downsize_method phase_fold smooth
                        [p0; p1; p2] transit_ids all_ids w in
    (match r with Ok _ => k = length all_ids | Raise _ => k < length all_ids end) /\
    exists flux_rows time_rows,
      length flux_rows = k /\ length time_rows = k /\
      file_rows (w_fs w') p0 = file_rows (w_fs w) p0 ++ flux_rows /\
      file_rows (w_fs w') p1 = file_rows (w_fs w) p1 ++ time_rows /\
      file_rows (w_fs w') p2
      = file_rows (w_fs w) p2
        ++ map (fun star => [CInt (tofiles_label transit_ids star)])
               (take k all_ids).
Proof.
  intros H01 H02 H12.
  induction all_ids as [|star rest IH]; intros w r w' Hrun.
  - injection Hrun as <- <-. simpl. split; [done|].
    exists [], []. by rewrite !app_nil_r.
  - simpl in Hrun. unfold mbind, M_mbind, M_bind in Hrun.
    pose proof (tofiles_star_writes globals n_timesteps downsize_method
                  phase_fold smooth p0 p1 p2 transit_ids star H01 H02 H12 w)
      as Hstar.
    simpl stars_done.
    destruct (tofiles_star _ _ _ _ _ _ _ _ w) as [[[]|e] w1].
    + destruct Hstar as (flux_row & time_row & R0 & R1 & R2).
      destruct (IH w1 r w' Hrun) as (Hk & flux_rows & time_rows & L0 & L1 &
                                     Q0 & Q1 & Q2).
      split.
      { destruct r; simpl; lia. }
      exists (flux_row :: flux_rows), (time_row :: time_rows).
      simpl. rewrite L0, L1, Q0, Q1, Q2, R0, R1, R2.
      by rewrite <- !app_assoc.
    + injection Hrun as <- <-. simpl. split; [lia|].
      exists [], []. by rewrite !app_nil_r, Hstar.
Qed.

(** *** With the module's own globals *)

Lemma load_stitch_quarters :
  load_global utils_globals "stitch_quarters" = Raise (NameError "stitch_quarters").
Proof. reflexivity. Qed.

Lemma tofiles_star_name_error n_timesteps downsize_method phase_fold smooth
    filepaths transit_ids star w :
  match search_download star w with
  | (Ok _, w1) =>
      tofiles_star utils_globals n_timesteps downsize_method phase_fold smooth
                   filepaths transit_ids star w
      = (Raise (NameError "stitch_quarters"), w1)
  | (Raise e, w1) =>
      tofiles_star utils_globals n_timesteps downsize_method phase_fold smooth
                   filepaths transit_ids star w
      = (Raise e, w1)
  end.
Proof.
  unfold tofiles_star, mbind, M_mbind, M_bind.
  destruct (search_download star w) as [[curve|e] w1]; [|done].
  by rewrite load_stitch_quarters.
Qed.

Lemma frames_tofiles_star_utils n_timesteps downsize_method phase_fold smooth
    filepaths transit_ids star :
  frames_files (tofiles_star utils_globals n_timesteps downsize_method
                             phase_fold smooth filepaths transit_ids star).
Proof.
  intros w.
  pose proof (tofiles_star_name_error n_timesteps downsize_method phase_fold
                smooth filepaths transit_ids star w) as Hstar.
  pose proof (frames_download star w) as Hnet.
  destruct (search_download star w) as [[curve|e] w1]; by rewrite Hstar.
Qed.

Lemma frames_tofiles_loop_utils n_timesteps downsize_method phase_fold smooth
    filepaths transit_ids all_ids :
  frames_files (tofiles_loop utils_globals n_timesteps downsize_method
                             phase_fold smooth filepaths transit_ids all_ids).
Proof.
  induction all_ids as [|star rest IH]; [done|].
  simpl. apply frames_bind; [apply frames_tofiles_star_utils|done].
Qed.


(** C9. Whatever [stitch_quarters], [medfilt] and [binned_statistic] are
    bound to: when the loop raises, it raises on the star after the [k] it
    carried through, and at exit each of the three files holds the rows it
    had on entry followed by [k] rows, one per star carried through, the
    labels rows being those stars' labels in order. *)
Theorem tofiles_rows_persist
    globals n_curves n_timesteps downsize_method phase_fold smooth pct_transit
    savepath w all_ids transit_ids w1 filepaths w2 e w' :
  select_ids n_curves pct_transit w = (Ok (all_ids, transit_ids), w1) ->
  prepare_files savepath n_timesteps pct_transit w1 = (Ok filepaths, w2) ->
  collect_curves_tofiles globals n_curves n_timesteps downsize_method
    phase_fold smooth pct_transit savepath w = (Raise e, w') ->
  let k := stars_done globals n_timesteps downsize_method phase_fold smooth
                      filepaths transit_ids all_ids w2 in
  k < length all_ids /\
  exists flux_rows time_rows,
    length flux_rows = k /\ length time_rows = k /\
    file_rows (w_fs w') (filepath_of savepath "flux" n_timesteps pct_transit)
    = file_rows (w_fs w) (filepath_of savepath "flux" n_timesteps pct_transit)
      ++ flux_rows /\
    file_rows (w_fs w') (filepath_of savepath "time" n_timesteps pct_transit)
    = file_rows (w_fs w) (filepath_of savepath "time" n_timesteps pct_transit)
      ++ time_rows /\
    file_rows (w_fs w') (filepath_of savepath "labels" n_timesteps pct_transit)
    = file_rows (w_fs w) (filepath_of savepath "labels" n_timesteps pct_transit)
      ++ map (fun star => [CInt (tofiles_label transit_ids star)])
             (take k all_ids).
Proof.
  intros Hsel Hprep Hrun k. subst k.
  unfold collect_curves_tofiles, mbind, M_mbind, M_bind in Hrun.
  rewrite Hsel, Hprep in Hrun.
  pose proof (prepare_files_paths _ _ _ _ _ _ Hprep) as ->.
  eapply tofiles_loop_rows in Hrun; [|by apply filepath_of_tag_ne..].
  destruct Hrun as (Hk & flux_rows & time_rows & L0 & L1 & Q0 & Q1 & Q2).
  split; [done|]. exists flux_rows, time_rows.
  assert (forall path, file_rows (w_fs w2) path = file_rows (w_fs w) path)
    as Hrows.
  { intros path.
    pose proof (frames_rows_prepare savepath n_timesteps pct_transit w1 path)
      as Hp. rewrite Hprep in Hp. simpl in Hp. rewrite Hp.
    pose proof (frames_select_ids n_curves pct_transit w) as Hs.
    rewrite Hsel in Hs. simpl in Hs. unfold file_rows. by rewrite Hs. }
  by rewrite <- !Hrows.
Qed.

End TofilesFacts.

(** ** The length of the rows *)



Section RowFacts.
Context `{Scipy} `{NumpyRandom} `{Lightkurve} `{PyFormat}.





End RowFacts.

(** ** The concrete world at work *)

Lemma demo_random_lawful : @lawful_random demo_random.
Proof.
  repeat split.
  - simpl. by rewrite length_map, length_seq.
  - simpl. apply Forall_forall. intros i Hi.
    apply list_elem_of_In, in_map_iff in Hi as (j & <- & _).
    apply Nat.mod_upper_bound. lia.
  - intros n g. simpl. symmetry. apply Permutation_rev.
Qed.

Section Examples.
#[local] Existing Instances demo_scipy demo_random demo_lightkurve demo_format.

Lemma stitch_concatenates_demo :
  fits_of demo_curve demo_popts /\
  exists s, stitch demo_curve = Ok s /\
    tot_time s = concat (map lc_time demo_curve) /\
    tot_flux s = concat (zip_with detrended demo_curve demo_popts) /\
    tot_flux_err s = concat (map relative_error demo_curve) /\
    tot_qual s = concat (map lc_quality demo_curve) /\
    length (tot_time s) = list_sum (map length demo_curve) /\
    length (tot_flux s) = list_sum (map length demo_curve) /\
    length (tot_flux_err s) = list_sum (map length demo_curve) /\
    length (tot_qual s) = list_sum (map length demo_curve).
Proof.
  assert (fits_of demo_curve demo_popts) as Hfit.
  { repeat constructor; vm_compute; reflexivity. }
  split; [exact Hfit|]. exact (stitch_concatenates demo_curve demo_popts Hfit).
Defined.

Lemma stitch_detrends_demo :
  Forall2 (fun lc popt =>
             curve_fit (lc_time (nonnan_samples lc)) (lc_flux (nonnan_samples lc))
             = Ok popt) demo_curve demo_popts /\
  exists s, stitch demo_curve = Ok s /\
    tot_flux s =
      concat (zip_with
                (fun lc popt =>
                   map (fun smp =>
                          (s_flux smp / linear_func (s_time smp) popt.1 popt.2)%float)
                       lc)
                demo_curve demo_popts) /\
    forall i lc a b j smp,
      demo_curve !! i = Some lc -> demo_popts !! i = Some (a, b) ->
      lc !! j = Some smp ->
      tot_flux s !! (length (concat (take i demo_curve)) + j)
      = Some (s_flux smp / (a * s_time smp + b))%float.
Proof.
  assert (Forall2 (fun lc popt =>
             curve_fit (lc_time (nonnan_samples lc)) (lc_flux (nonnan_samples lc))
             = Ok popt) demo_curve demo_popts) as Hfit.
  { repeat constructor; vm_compute; reflexivity. }
  split; [exact Hfit|]. exact (stitch_detrends demo_curve demo_popts Hfit).
Defined.

Lemma stitch_relative_flux_err_demo :
  fits_of demo_curve demo_popts /\
  exists s, stitch demo_curve = Ok s /\
    tot_flux_err s =
      concat (map (fun lc =>
                     map (fun smp => (s_flux_err smp / s_flux smp)%float) lc)
                  demo_curve).
Proof.
  assert (fits_of demo_curve demo_popts) as Hfit.
  { repeat constructor; vm_compute; reflexivity. }
  split; [exact Hfit|].
  exact (stitch_relative_flux_err demo_curve demo_popts Hfit).
Defined.

(** On [demo_curve] the stitched errors are 0.25, 0.125, ... where the raw
    ones are 0.5, 0.5, ... *)
Example stitch_flux_err_not_raw :
  match stitch demo_curve with
  | Ok s => tot_flux_err s !! 0%nat = Some 0.25%float
  | Raise _ => False
  end /\
  concat (map lc_flux_err demo_curve) !! 0%nat = Some 0.5%float.
Proof. split; vm_compute; reflexivity. Qed.

Lemma mask_poor_quality_demo :
  stitch demo_curve = Ok demo_stitched /\
  exists s', mask_poor_quality demo_stitched = Ok s' /\
    tot_time s' = tot_time demo_stitched /\
    length (tot_flux s') = length (tot_flux demo_stitched) /\
    forall i t f e q,
      tot_time demo_stitched !! i = Some t -> tot_flux demo_stitched !! i = Some f ->
      tot_flux_err demo_stitched !! i = Some e ->
      tot_qual demo_stitched !! i = Some q ->
      (poor_quality t f e q -> tot_flux s' !! i = Some nan) /\
      (~ poor_quality t f e q -> tot_flux s' !! i = Some f).
Proof.
  assert (stitch demo_curve = Ok demo_stitched) as Hs
    by (vm_compute; reflexivity).
  split; [exact Hs|]. exact (mask_poor_quality_exact demo_curve demo_stitched Hs).
Defined.

Lemma select_ids_counts_demo :
  exists all_ids nontransit_ids transit_ids w',
    select_ids 4 48.8 (demo_world ∅ []) = (Ok (all_ids, transit_ids), w') /\
    Z.of_nat (length transit_ids) = 1%Z /\
    Forall (fun id => exists r, In r demo_koi /\
                        koi_disposition r = "CONFIRMED" /\ kepid r = id)
           transit_ids /\
    Z.of_nat (length nontransit_ids) = 2%Z /\
    Forall (fun id => exists r, In r demo_koi /\
                        koi_disposition r = "FALSE POSITIVE" /\ kepid r = id)
           nontransit_ids /\
    Permutation all_ids (nontransit_ids ++ transit_ids) /\
    let draw_n := randint (length (kepids_with "FALSE POSITIVE" demo_koi))
                          (Z.to_nat 2) (w_rng (demo_world ∅ [])) in
    let draw_t := randint (length (kepids_with "CONFIRMED" demo_koi))
                          (Z.to_nat 1) draw_n.2 in
    let draw_p := permutation (length (nontransit_ids ++ transit_ids))
                              draw_t.2 in
    Forall2 (fun i id => kepids_with "FALSE POSITIVE" demo_koi !! i = Some id)
            draw_n.1 nontransit_ids /\
    Forall2 (fun i id => kepids_with "CONFIRMED" demo_koi !! i = Some id)
            draw_t.1 transit_ids /\
    Forall2 (fun i id => (nontransit_ids ++ transit_ids) !! i = Some id)
            draw_p.1 all_ids /\
    w' = set_rng draw_p.2 (demo_world ∅ []).
Proof.
  apply (select_ids_counts 4 48.8 (demo_world ∅ []) demo_koi 2 1).
  - exact demo_random_lawful.
  - reflexivity.
  - vm_compute; reflexivity.
  - vm_compute; reflexivity.
  - lia.
  - lia.
  - intros _. vm_compute. discriminate.
  - intros _. vm_compute. discriminate.
Defined.

Lemma collect_curves_confirmed_star_labelled_zero :
  select_ids 1 100 (demo_world ∅ [Ok (Some demo_curve)])
  = (Ok ([11446443%Z], [11446443%Z]),
     (select_ids 1 100 (demo_world ∅ [Ok (Some demo_curve)])).2) /\
  In (Koi 11446443 "CONFIRMED") demo_koi /\
  collect_curves 1 3 "interpolate" 100 (demo_world ∅ [Ok (Some demo_curve)])
  = (Ok demo_arrays,
     (collect_curves 1 3 "interpolate" 100
        (demo_world ∅ [Ok (Some demo_curve)])).2) /\
  Forall (fun l => l = 0%float) (all_labels demo_arrays).
Proof.
  assert (collect_curves 1 3 "interpolate" 100
            (demo_world ∅ [Ok (Some demo_curve)])
          = (Ok demo_arrays,
             (collect_curves 1 3 "interpolate" 100
                (demo_world ∅ [Ok (Some demo_curve)])).2)) as Hrun
    by (vm_compute; reflexivity).
  split; [vm_compute; reflexivity|]. split; [by left|]. split; [exact Hrun|].
  exact (collect_curves_labels_all_zero _ _ _ _ _ _ _ Hrun).
Defined.

Lemma collect_curves_row_width_demo :
  collect_curves 1 3 "interpolate" 100 (demo_world ∅ [Ok (Some demo_curve)])
  = (Ok demo_arrays,
     (collect_curves 1 3 "interpolate" 100
        (demo_world ∅ [Ok (Some demo_curve)])).2) /\
  Forall (fun r => length r = Z.to_nat 3) (all_curves demo_arrays) /\
  Forall (fun r => length r = Z.to_nat 3) (all_times demo_arrays).
Proof.
  assert (collect_curves 1 3 "interpolate" 100
            (demo_world ∅ [Ok (Some demo_curve)])
          = (Ok demo_arrays,
             (collect_curves 1 3 "interpolate" 100
                (demo_world ∅ [Ok (Some demo_curve)])).2)) as Hrun
    by (vm_compute; reflexivity).
  split; [exact Hrun|].
  exact (collect_curves_row_width _ _ _ _ _ _ _ Hrun).
Defined.

(** 'truncate' cannot lengthen a curve: it leaves the three values of a
    three-cadence curve as they are when five are asked for.
    [collect_curves] then cannot store the row and raises instead of
    returning it; the loop of [collect_curves_tofiles] would write the three
    values if [stitch_quarters] were bound. *)
Example truncate_short_curve :
  downsize "truncate" 5 [1; 1; nan]%float [0; 1; 2]%float
  = Ok ([1; 1; nan]%float, [0; 1; 2]%float) /\
  (collect_curves 1 5 "truncate" 100
     (demo_world ∅ [Ok (Some demo_short_curve)])).1
  = Raise (ValueError "could not broadcast input array") /\
  file_rows
    (w_fs (collect_curves_tofiles patched_globals 1 5 "truncate" false false
             100 "../LC_Data" (demo_world ∅ [Ok (Some demo_short_curve)])).2)
    "../LC_Data/flux_all_5_100.0.csv"
  = [[CFloat 1; CFloat 1; CFloat nan]].
Proof. repeat split; vm_compute; reflexivity. Qed.

Example downsize_lengths_demo :
  exists flux' time',
    downsize "interpolate" 5 [1; 1; nan]%float [0; 1; 2]%float
    = Ok (flux', time') /\
    length flux' = Z.to_nat 5 /\ length time' = Z.to_nat 5.
Proof.
  apply (downsize_lengths "interpolate" 5 [1; 1; nan]%float [0; 1; 2]%float).
  - lia.
  - left. repeat split; discriminate.
Defined.




(** C8 fails on a file without data: with the time file alone in place and
    empty, and with all three files in place and empty (as a first call
    leaves them), pandas raises before any length is compared. *)
Lemma prepare_files_empty_file :
  demo_empty_time !! "../LC_Data/flux_all_5_48.8.csv" = None /\
  demo_empty_time !! "../LC_Data/time_all_5_48.8.csv" = Some [] /\
  demo_empty_time !! "../LC_Data/labels_all_5_48.8.csv" = None /\
  (prepare_files "../LC_Data" 5 48.8 (demo_world demo_empty_time [])).1
  = Raise EmptyDataError /\
  (prepare_files "../LC_Data" 5 48.8 (demo_world demo_three_empty [])).1
  = Raise EmptyDataError.
Proof. repeat split; vm_compute; reflexivity. Qed.

Lemma prepare_files_outcome_demo :
  exists w',
    prepare_files "../LC_Data" 5 48.8 (demo_world demo_files [])
    = (if all_same [LenInt 2; LenList0; LenList0]
       then Ok [ filepath_of "../LC_Data" "flux" 5 48.8;
                 filepath_of "../LC_Data" "time" 5 48.8;
                 filepath_of "../LC_Data" "labels" 5 48.8 ]
       else Raise (DifferentRows
                     [ filepath_of "../LC_Data" "flux" 5 48.8;
                       filepath_of "../LC_Data" "time" 5 48.8;
                       filepath_of "../LC_Data" "labels" 5 48.8 ]
                     [LenInt 2; LenList0; LenList0]), w') /\
    (is_Some (w_fs w' !! filepath_of "../LC_Data" "flux" 5 48.8) /\
     is_Some (w_fs w' !! filepath_of "../LC_Data" "time" 5 48.8) /\
     is_Some (w_fs w' !! filepath_of "../LC_Data" "labels" 5 48.8)) /\
    (forall path,
        file_rows (w_fs w') path
        = file_rows (w_fs (demo_world demo_files [])) path) /\
    (all_same [LenInt 2; LenList0; LenList0] = true <->
     (LenInt 2 = LenList0 /\ LenList0 = LenList0 /\ LenList0 = LenList0) \/
     (exists k, LenInt 2 = LenInt k /\ LenList0 = LenInt k /\ LenList0 = LenInt k)).
Proof.
  apply (prepare_files_outcome "../LC_Data" 5 48.8 (demo_world demo_files [])
           (LenInt 2) LenList0 LenList0).
  - vm_compute. reflexivity.
  - vm_compute. exists 2%nat. split; reflexivity.
  - vm_compute. reflexivity.
  - vm_compute. reflexivity.
Defined.

Lemma tofiles_rows_persist_demo :
  collect_curves_tofiles patched_globals 4 5 "truncate" false false 48.8
    "../LC_Data" (demo_world ∅ [Ok (Some demo_short_curve)])
  = (Raise (LibraryError "connection failed"),
     (collect_curves_tofiles patched_globals 4 5 "truncate" false false 48.8
        "../LC_Data" (demo_world ∅ [Ok (Some demo_short_curve)])).2) /\
  file_rows
    (w_fs (collect_curves_tofiles patched_globals 4 5 "truncate" false false
             48.8 "../LC_Data" (demo_world ∅ [Ok (Some demo_short_curve)])).2)
    "../LC_Data/labels_all_5_48.8.csv"
  = [[CInt 1]] /\
  let k :=
    stars_done patched_globals 5 "truncate" false false
      [ "../LC_Data/flux_all_5_48.8.csv"; "../LC_Data/time_all_5_48.8.csv";
        "../LC_Data/labels_all_5_48.8.csv" ]
      [11446443%Z] [11446443%Z; 10418224%Z; 10418224%Z]
      (prepare_files "../LC_Data" 5 48.8
         (select_ids 4 48.8 (demo_world ∅ [Ok (Some demo_short_curve)])).2).2 in
  k < length [11446443%Z; 10418224%Z; 10418224%Z] /\
  exists flux_rows time_rows,
    length flux_rows = k /\ length time_rows = k /\
    file_rows
      (w_fs (collect_curves_tofiles patched_globals 4 5 "truncate" false false
               48.8 "../LC_Data" (demo_world ∅ [Ok (Some demo_short_curve)])).2)
      (filepath_of "../LC_Data" "flux" 5 48.8)
    = file_rows (w_fs (demo_world ∅ [Ok (Some demo_short_curve)]))
                (filepath_of "../LC_Data" "flux" 5 48.8) ++ flux_rows /\
    file_rows
      (w_fs (collect_curves_tofiles patched_globals 4 5 "truncate" false false
               48.8 "../LC_Data" (demo_world ∅ [Ok (Some demo_short_curve)])).2)
      (filepath_of "../LC_Data" "time" 5 48.8)
    = file_rows (w_fs (demo_world ∅ [Ok (Some demo_short_curve)]))
                (filepath_of "../LC_Data" "time" 5 48.8) ++ time_rows /\
    file_rows
      (w_fs (collect_curves_tofiles patched_globals 4 5 "truncate" false false
               48.8 "../LC_Data" (demo_world ∅ [Ok (Some demo_short_curve)])).2)
      (filepath_of "../LC_Data" "labels" 5 48.8)
    = file_rows (w_fs (demo_world ∅ [Ok (Some demo_short_curve)]))
                (filepath_of "../LC_Data" "labels" 5 48.8)
      ++ map (fun star => [CInt (tofiles_label [11446443%Z] star)])
             (take k [11446443%Z; 10418224%Z; 10418224%Z]).
Proof.
  split; [vm_compute; reflexivity|]. split; [vm_compute; reflexivity|].
  apply (tofiles_rows_persist patched_globals 4 5 "truncate" false false 48.8
           "../LC_Data" (demo_world ∅ [Ok (Some demo_short_curve)])
           [11446443%Z; 10418224%Z; 10418224%Z] [11446443%Z]
           (select_ids 4 48.8 (demo_world ∅ [Ok (Some demo_short_curve)])).2
           [ "../LC_Data/flux_all_5_48.8.csv"; "../LC_Data/time_all_5_48.8.csv";
             "../LC_Data/labels_all_5_48.8.csv" ]
           (prepare_files "../LC_Data" 5 48.8
              (select_ids 4 48.8 (demo_world ∅ [Ok (Some demo_short_curve)])).2).2
           (LibraryError "connection failed")).
  - vm_compute; reflexivity.
  - vm_compute; reflexivity.
  - vm_compute; reflexivity.
Defined.

End Examples.

(** * Further properties *)

(** ** Floats *)

Lemma SFeqb_refl (x : spec_float) : x ≠ S754_nan -> SFeqb x x = true.
Proof.
  destruct x as [s|s| |s m e]; try done; intros _; unfold SFeqb; simpl.
  - by destruct s.
  - destruct s; rewrite Z.compare_refl;
      change (Pos.compare_cont Eq m m) with (m ?= m)%positive;
      by rewrite Pos.compare_refl.
Qed.

Lemma is_nan_nan (x : float) : is_nan x = true -> x = nan.
Proof.
  unfold is_nan. rewrite FloatAxioms.eqb_spec. intros Hx.
  apply Prim2SF_inj. change (Prim2SF nan) with S754_nan.
  destruct (Prim2SF x) as [s|s| |s m e] eqn:E; [..|done|];
    by rewrite SFeqb_refl in Hx.
Qed.

Lemma div_nan_l (y : float) : (nan / y)%float = nan.
Proof.
  apply Prim2SF_inj. rewrite div_spec.
  change (Prim2SF nan) with S754_nan. reflexivity.
Qed.

Lemma div_nan_r (x : float) : (x / nan)%float = nan.
Proof.
  apply Prim2SF_inj. rewrite div_spec.
  change (Prim2SF nan) with S754_nan. unfold SF64div, SFdiv.
  by destruct (Prim2SF x).
Qed.

(** ** stitch, further *)

Section StitchMore.
Context `{Scipy}.

Lemma stitch_loop_shift quarters : forall tot,
  stitch_loop tot quarters
  = bind (stitch quarters) (fun s => Ok (stitched_app tot s)).
Proof.
  unfold stitch.
  induction quarters as [|lc rest IH]; intros tot.
  - simpl. unfold stitched_app. simpl. rewrite !app_nil_r. by destruct tot.
  - simpl. unfold mbind, result_bind.
    destruct (fit_quarter lc) as [popt|e]; simpl; [|done].
    rewrite IH. symmetry. rewrite IH.
    destruct (stitch_loop _ rest) as [s|e]; simpl; [|done].
    unfold stitched_app. simpl. by rewrite !app_assoc.
Qed.

Lemma stitch_loop_app c1 : forall tot c2,
  stitch_loop tot (c1 ++ c2)
  = bind (stitch_loop tot c1) (fun t => stitch_loop t c2).
Proof.
  induction c1 as [|lc rest IH]; intros tot c2; [done|].
  simpl. unfold mbind, result_bind.
  destruct (fit_quarter lc) as [popt|e]; simpl; [|done]. apply IH.
Qed.

(** Stitching is quarter by quarter: a collection made of two stitches to
    the arrays of the first followed by those of the second, and raises
    what the first of the two to fail raises. *)
Theorem stitch_app (c1 c2 : LightCurveCollection) :
  stitch (c1 ++ c2)
  = bind (stitch c1) (fun s1 =>
      bind (stitch c2) (fun s2 => Ok (stitched_app s1 s2))).
Proof.
  unfold stitch at 1. rewrite stitch_loop_app.
  fold (stitch c1). destruct (stitch c1) as [s1|e]; simpl; [|done].
  apply stitch_loop_shift.
Qed.

(** A quarter the optimiser raises on makes [stitch] raise the same
    exception, whatever came before it fitted and whatever follows. *)
Theorem stitch_raises_first_failure (done_ : LightCurveCollection) popts lc rest e :
  fits_of done_ popts ->
  fit_quarter lc = Raise e ->
  stitch (done_ ++ lc :: rest) = Raise e.
Proof. intros Hfit Hlc. unfold stitch. by eapply stitch_loop_raise. Qed.

(** A cadence whose raw flux is NaN is kept, with NaN as its stitched flux
    and as its stitched flux error. *)
Theorem stitch_keeps_nan_cadence (c : LightCurveCollection) popts i lc j smp :
  fits_of c popts ->
  c !! i = Some lc -> lc !! j = Some smp -> is_nan (s_flux smp) = true ->
  exists s, stitch c = Ok s /\
    tot_flux s !! (length (concat (take i c)) + j) = Some nan /\
    tot_flux_err s !! (length (concat (take i c)) + j) = Some nan.
Proof.
  intros Hfit Hi Hj Hnan. apply is_nan_nan in Hnan.
  eexists. split; [by apply stitch_spec|]. simpl.
  destruct (Forall2_lookup_l _ _ _ _ _ Hfit Hi) as (popt & Hp & _).
  split.
  - assert (length (concat (take i c))
            = length (concat (take i (zip_with detrended c popts)))) as ->.
    { symmetry. rewrite zip_with_take. apply length_concat_detrended.
      rewrite !length_take. apply Forall2_length in Hfit. lia. }
    eapply lookup_concat.
    + rewrite lookup_zip_with, Hi. simpl. rewrite Hp. reflexivity.
    + rewrite detrended_pointwise, map_fmap, list_lookup_fmap, Hj. simpl.
      by rewrite Hnan, div_nan_l.
  - assert (length (concat (take i c))
            = length (concat (take i (map relative_error c)))) as ->.
    { rewrite !map_fmap, <- fmap_take, <- !map_fmap.
      symmetry. apply length_concat_map, length_relative_error. }
    eapply lookup_concat.
    + rewrite map_fmap, list_lookup_fmap, Hi. reflexivity.
    + rewrite relative_error_pointwise, map_fmap, list_lookup_fmap, Hj. simpl.
      by rewrite Hnan, div_nan_r.
Qed.

End StitchMore.

(** ** The quality mask, further *)

Lemma good_sample_nan t e q : good_sample t nan e q = false.
Proof.
  unfold good_sample. change (isfinite nan) with false.
  by rewrite andb_false_r.
Qed.

Section MaskMore.
Context `{Scipy}.

(** Masking a second time changes nothing: what the mask kept it keeps
    again, what it set to NaN stays NaN. *)
Theorem mask_poor_quality_idempotent (c : LightCurveCollection) s s' :
  stitch c = Ok s ->
  mask_poor_quality s = Ok s' ->
  mask_poor_quality s' = Ok s'.
Proof.
  intros Hs Hmask. destruct (stitch_lengths _ _ Hs) as (Hf & He & Hq).
  destruct (mask_poor_quality_same_length s Hf He Hq)
    as (s1 & Hmask1 & Ht1 & He1 & Hq1 & Hl1 & Hat1).
  rewrite Hmask in Hmask1. injection Hmask1 as <-.
  destruct (mask_poor_quality_same_length s') as
    (s2 & Hmask2 & Ht2 & He2 & Hq2 & Hl2 & Hat2); [congruence..|].
  rewrite Hmask2. f_equal.
  destruct s2 as [t2 f2 e2 q2], s' as [t1 f1 e1 q1]. simpl in *. subst.
  f_equal. apply list_eq. intros i.
  destruct (decide (i < length (tot_flux s))) as [Hi|Hi].
  - destruct (lookup_lt_is_Some_2 (tot_time s) i) as [t Ht]; [lia|].
    destruct (lookup_lt_is_Some_2 (tot_flux s) i) as [f Hfl]; [lia|].
    destruct (lookup_lt_is_Some_2 (tot_flux_err s) i) as [e Her]; [lia|].
    destruct (lookup_lt_is_Some_2 (tot_qual s) i) as [q Hql]; [lia|].
    pose proof (Hat1 i t f e q Ht Hfl Her Hql) as H1.
    rewrite H1, (Hat2 i t _ e q Ht H1 Her Hql).
    destruct (good_sample t f e q) eqn:Hgood.
    + by rewrite Hgood.
    + by rewrite good_sample_nan.
  - rewrite !lookup_ge_None_2 by lia. done.
Qed.

(** What survives the mask is fit for use: a flux value that is not NaN
    afterwards is the stitched value, is finite, and belongs to a cadence
    with finite time, finite and strictly positive flux error and quality
    flag 0. *)
Theorem mask_poor_quality_survivors (c : LightCurveCollection) s s' i f' :
  stitch c = Ok s ->
  mask_poor_quality s = Ok s' ->
  tot_flux s' !! i = Some f' ->
  is_nan f' = false ->
  tot_flux s !! i = Some f' /\ isfinite f' = true /\
  exists t e,
    tot_time s !! i = Some t /\ isfinite t = true /\
    tot_flux_err s !! i = Some e /\ (0 <? e)%float = true /\
    isfinite e = true /\ tot_qual s !! i = Some 0%Z.
Proof.
  intros Hs Hmask Hi Hnan. destruct (stitch_lengths _ _ Hs) as (Hf & He & Hq).
  destruct (mask_poor_quality_same_length s Hf He Hq)
    as (s1 & Hmask1 & Ht1 & He1 & Hq1 & Hl1 & Hat1).
  rewrite Hmask in Hmask1. injection Hmask1 as <-.
  assert (i < length (tot_flux s)) as Hlt.
  { rewrite <- Hl1. by eapply lookup_lt_Some. }
  destruct (lookup_lt_is_Some_2 (tot_time s) i) as [t Ht]; [lia|].
  destruct (lookup_lt_is_Some_2 (tot_flux s) i) as [f Hfl]; [lia|].
  destruct (lookup_lt_is_Some_2 (tot_flux_err s) i) as [e Her]; [lia|].
  destruct (lookup_lt_is_Some_2 (tot_qual s) i) as [q Hql]; [lia|].
  rewrite (Hat1 i t f e q Ht Hfl Her Hql) in Hi.
  destruct (good_sample t f e q) eqn:Hgood; simplify_eq.
  unfold good_sample in Hgood.
  repeat (apply andb_prop in Hgood as [Hgood ?]).
  apply Z.eqb_eq in Hgood as ->. split; [done|]. split; [done|].
  by exists t, e.
Qed.

End MaskMore.

(** ** Resizing, further *)

Lemma resample_negative n_timesteps fp :
  (n_timesteps < 0)%Z ->
  resample n_timesteps fp
  = Raise (ValueError "Number of samples must be non-negative").
Proof.
  intros Hn. unfold resample, np_linspace, mbind, result_bind.
  by rewrite (proj2 (Z.ltb_lt n_timesteps 0)).
Qed.

Lemma resample_empty n_timesteps :
  (0 <= n_timesteps)%Z ->
  resample n_timesteps [] = Raise (ValueError "array of sample points is empty").
Proof.
  intros Hn. unfold resample, mbind, result_bind.
  destruct (np_linspace_length 0 (py_float (n_timesteps - 1)) n_timesteps Hn)
    as (x & -> & _). reflexivity.
Qed.

(** 'interpolate' has nothing to offer for a negative [n_timesteps] or for
    a curve without cadences: it raises [ValueError] where 'truncate' would
    return. *)
Theorem downsize_interpolate_rejects n_timesteps flux time :
  (n_timesteps < 0)%Z \/ flux = [] \/ time = [] ->
  exists msg,
    downsize "interpolate" n_timesteps flux time = Raise (ValueError msg).
Proof.
  intros Hbad. unfold downsize, mbind, result_bind.
  rewrite decide_True by done.
  destruct (Z.lt_ge_cases n_timesteps 0) as [Hn|Hn].
  { rewrite resample_negative by done. by eexists. }
  destruct flux as [|f flux].
  { rewrite resample_empty by done. by eexists. }
  destruct (resample_length n_timesteps (f :: flux) Hn) as (flux' & -> & _);
    [done|].
  destruct Hbad as [?|[?| ->]]; [lia|done|].
  rewrite resample_empty by done. by eexists.
Qed.

(** ** Choosing the stars and collect_curves, further *)

Section CollectMore.
Context `{Scipy} `{NumpyRandom} `{Lightkurve} `{PyFormat}.

Lemma confined_bind {A B} paths (m : M A) (k : A -> M B) :
  confined paths m -> (forall a, confined paths (k a)) ->
  confined paths (M_bind m k).
Proof.
  intros Hm Hk w. unfold M_bind. destruct (Hm w) as (Hkoi & Hdirs & Hfs).
  destruct (m w) as [[a|e] w1]; simpl in *; [|done].
  destruct (Hk a w1) as (Hkoi' & Hdirs' & Hfs').
  split; [congruence|]. split; [congruence|].
  intros q Hq. by rewrite Hfs', Hfs.
Qed.

Lemma confined_lift {A} paths (r : result A) : confined paths (lift r).
Proof. intros w. by repeat split. Qed.

Lemma confined_ret {A} paths (a : A) : confined paths (M_ret a).
Proof. intros w. by repeat split. Qed.

Lemma confined_read_koi paths : confined paths read_koi.
Proof.
  intros w. unfold read_koi.
  destruct (w_koi w) eqn:E; simpl; rewrite ?E; by repeat split.
Qed.

Lemma confined_choice paths a size : confined paths (np_random_choice a size).
Proof.
  intros w. unfold np_random_choice. repeat case_match; by repeat split.
Qed.

Lemma confined_permutation paths n : confined paths (np_random_permutation n).
Proof.
  intros w. unfold np_random_permutation. case_match. by repeat split.
Qed.

Lemma confined_select_ids paths n_curves pct_transit :
  confined paths (select_ids n_curves pct_transit).
Proof.
  unfold select_ids.
  repeat first
    [ apply confined_bind; [|intros ?]
    | apply confined_read_koi | apply confined_choice
    | apply confined_permutation | apply confined_lift | apply confined_ret ].
Qed.

Lemma np_zeros_nonneg n :
  (0 <= n)%Z -> np_zeros n = Ok (replicate (Z.to_nat n) 0%float).
Proof. intros Hn. unfold np_zeros. by rewrite (proj2 (Z.ltb_ge n 0)). Qed.

Lemma np_setrow_length width arr i v arr' :
  np_setrow width arr i v = Ok arr' -> length arr' = length arr.
Proof.
  unfold np_setrow. intros Hset. case_decide.
  - injection Hset as <-. apply length_insert.
  - destruct v as [|x [|??]]; simplify_eq. apply length_insert.
Qed.

Lemma curves_loop_lengths n_timesteps downsize_method transit_ids all_ids :
  forall i a w a' w',
    curves_loop n_timesteps downsize_method transit_ids all_ids i a w
    = (Ok a', w') ->
    length (all_curves a') = length (all_curves a) /\
    length (all_times a') = length (all_times a) /\
    length (all_labels a') = length (all_labels a).
Proof.
  induction all_ids as [|star rest IH]; intros i a w a' w' Hrun.
  - by injection Hrun as <- <-.
  - simpl in Hrun. unfold mbind, M_mbind in Hrun.
    apply M_bind_Ok_inv in Hrun as (curve & w1 & _ & Hrun).
    apply M_bind_Ok_inv in Hrun as (s & w2 & _ & Hrun).
    apply M_bind_Ok_inv in Hrun as (s' & w3 & _ & Hrun).
    apply M_bind_Ok_inv in Hrun as ([flux time] & w4 & _ & Hrun).
    apply M_bind_Ok_inv in Hrun as (times & w5 & Htimes & Hrun).
    apply M_bind_Ok_inv in Hrun as (curves & w6 & Hcurves & Hrun).
    apply lift_Ok_inv in Htimes as [Htimes _].
    apply lift_Ok_inv in Hcurves as [Hcurves _].
    apply IH in Hrun as (Hc & Ht & Hl). simpl in *.
    rewrite Hc, Ht, Hl, length_insert.
    by rewrite (np_setrow_length _ _ _ _ _ Htimes),
               (np_setrow_length _ _ _ _ _ Hcurves).
Qed.

Lemma np_take_length {A} (arr : list A) idx l :
  np_take arr idx = Ok l -> length l = length idx.
Proof.
  unfold np_take. destruct (mapM _ idx) as [l'|] eqn:E; [|done].
  intros [= <-]. symmetry. by eapply length_mapM.
Qed.

Lemma np_random_choice_length a size w l w' :
  lawful_random ->
  np_random_choice a size w = (Ok l, w') ->
  (0 <= size)%Z /\ Z.of_nat (length l) = size.
Proof.
  intros (Hint & Hzero & _). unfold np_random_choice.
  destruct (Z.ltb_spec size 0) as [|Hsize]; [done|].
  destruct (bool_decide (a = []) && negb (size =? 0)%Z)%bool eqn:E; [done|].
  pose proof (Hint (length a) (Z.to_nat size) (w_rng w)) as Hlen.
  pose proof (Hzero (length a) (w_rng w)) as Hnil.
  destruct (randint (length a) (Z.to_nat size) (w_rng w)) as [idx g] eqn:Hdraw.
  intros [= Htake _]. apply np_take_length in Htake.
  split; [done|]. rewrite Htake.
  destruct (decide (size = 0%Z)) as [->|Hne].
  - change (Z.to_nat 0) with 0%nat in Hdraw. rewrite Hdraw in Hnil.
    simpl in Hnil. by subst idx.
  - apply andb_false_iff in E as [E|E].
    + apply bool_decide_eq_false_1 in E.
      destruct Hlen as [Hlen _]; [destruct a; simpl; [done|lia]|].
      simpl in Hlen. lia.
    + apply negb_false_iff, Z.eqb_eq in E. done.
Qed.

(** The number of stars chosen is the sum of the two sample sizes. *)
Lemma select_ids_length n_curves pct_transit w all_ids transit_ids w' :
  lawful_random ->
  select_ids n_curves pct_transit w = (Ok (all_ids, transit_ids), w') ->
  exists k_n k_t,
    n_nontransit n_curves pct_transit = Ok k_n /\
    n_transit n_curves pct_transit = Ok k_t /\
    (0 <= k_n)%Z /\ (0 <= k_t)%Z /\
    Z.of_nat (length all_ids) = (k_n + k_t)%Z.
Proof.
  intros Hlaw Hrun. unfold select_ids, mbind, M_mbind in Hrun.
  apply M_bind_Ok_inv in Hrun as (data & w1 & _ & Hrun).
  apply M_bind_Ok_inv in Hrun as (k_n & w2 & Hkn & Hrun).
  apply M_bind_Ok_inv in Hrun as (nontransit_ids & w3 & Hn & Hrun).
  apply M_bind_Ok_inv in Hrun as (k_t & w4 & Hkt & Hrun).
  apply M_bind_Ok_inv in Hrun as (tids & w5 & Ht & Hrun).
  apply M_bind_Ok_inv in Hrun as (p & w6 & Hp & Hrun).
  apply M_bind_Ok_inv in Hrun as (ids & w7 & Hids & Hrun).
  apply lift_Ok_inv in Hkn as [Hkn _]. apply lift_Ok_inv in Hkt as [Hkt _].
  apply lift_Ok_inv in Hids as [Hids _].
  injection Hrun as -> -> _.
  apply np_random_choice_length in Hn as [Hn0 Hn]; [|done].
  apply np_random_choice_length in Ht as [Ht0 Ht]; [|done].
  exists k_n, k_t. repeat split; try done.
  apply np_take_length in Hids. rewrite Hids.
  unfold np_random_permutation in Hp.
  destruct Hlaw as (_ & _ & Hperm).
  specialize (Hperm (length (nontransit_ids ++ transit_ids)) (w_rng w5)).
  destruct (permutation _ (w_rng w5)) as [p' g]. injection Hp as -> _.
  simpl in Hperm. apply Permutation_length in Hperm.
  rewrite Hperm, length_seq, length_app. lia.
Qed.

(** The arrays [collect_curves] returns have one row, and one label, per
    star that was chosen: [int(n_curves*(1-pct_transit/100))] plus
    [int(n_curves*(pct_transit/100))] of them, the two being truncations, so
    the sum can fall short of [n_curves]. *)
Theorem collect_curves_one_row_per_star
    n_curves n_timesteps downsize_method pct_transit w a w' :
  lawful_random ->
  collect_curves n_curves n_timesteps downsize_method pct_transit w = (Ok a, w') ->
  exists k_n k_t,
    py_int (py_float n_curves * (1 - pct_transit / 100))%float = Ok k_n /\
    py_int (py_float n_curves * (pct_transit / 100))%float = Ok k_t /\
    (0 <= k_n)%Z /\ (0 <= k_t)%Z /\
    Z.of_nat (length (all_curves a)) = (k_n + k_t)%Z /\
    Z.of_nat (length (all_times a)) = (k_n + k_t)%Z /\
    Z.of_nat (length (all_labels a)) = (k_n + k_t)%Z.
Proof.
  unfold collect_curves, mbind, M_mbind. intros Hlaw Hrun.
  apply M_bind_Ok_inv in Hrun as ([all_ids transit_ids] & w1 & Hsel & Hrun).
  apply M_bind_Ok_inv in Hrun as (curves & w2 & Hcurves & Hrun).
  apply M_bind_Ok_inv in Hrun as (times & w3 & Htimes & Hrun).
  apply M_bind_Ok_inv in Hrun as (labels & w4 & Hlabels & Hrun).
  apply lift_Ok_inv in Hcurves as [Hcurves _].
  apply lift_Ok_inv in Htimes as [Htimes _].
  apply lift_Ok_inv in Hlabels as [Hlabels _].
  apply curves_loop_lengths in Hrun as (Hc & Ht & Hl). simpl in *.
  destruct (select_ids_length _ _ _ _ _ _ Hlaw Hsel)
    as (k_n & k_t & Hkn & Hkt & Hn0 & Ht0 & Hlen).
  exists k_n, k_t. repeat split; try done.
  all: rewrite ?Hc, ?Ht, ?Hl, <- Hlen.
  all: unfold np_zeros2, np_zeros, mbind, result_bind in *.
  all: destruct (n_timesteps <? 0)%Z; simpl in *; [done|].
  all: case_match; simplify_eq.
  all: by rewrite !length_replicate, ?Nat2Z.id.
Qed.

(** A negative [n_timesteps] is refused when the arrays are allocated,
    after the stars were chosen and before anything is downloaded. *)
Theorem collect_curves_negative_timesteps
    n_curves n_timesteps downsize_method pct_transit w all_ids transit_ids w1 :
  select_ids n_curves pct_transit w = (Ok (all_ids, transit_ids), w1) ->
  (n_timesteps < 0)%Z ->
  collect_curves n_curves n_timesteps downsize_method pct_transit w
  = (Raise (ValueError "negative dimensions are not allowed"), w1).
Proof.
  intros Hsel Hn. unfold collect_curves, mbind, M_mbind, M_bind.
  rewrite Hsel. unfold lift, np_zeros2, np_zeros, mbind, result_bind.
  by rewrite (proj2 (Z.ltb_lt n_timesteps 0)).
Qed.

(** One star the archive cannot deliver loses the whole collection:
    when the download of the first star raises, [collect_curves] raises the
    same exception, and when the search finds nothing it raises the
    [TypeError] of [len(None)]. *)
Theorem collect_curves_download_fails
    n_curves n_timesteps downsize_method pct_transit w star rest transit_ids
    w1 w2 :
  select_ids n_curves pct_transit w = (Ok (star :: rest, transit_ids), w1) ->
  (0 <= n_timesteps)%Z ->
  (forall e,
      search_download star w1 = (Raise e, w2) ->
      collect_curves n_curves n_timesteps downsize_method pct_transit w
      = (Raise e, w2)) /\
  (search_download star w1 = (Ok None, w2) ->
   collect_curves n_curves n_timesteps downsize_method pct_transit w
   = (Raise (TypeError "object of type 'NoneType' has no len()"), w2)).
Proof.
  intros Hsel Hn.
  unfold collect_curves, mbind, M_mbind, M_bind.
  rewrite Hsel. unfold lift at 1 2 3, np_zeros2, mbind, result_bind.
  rewrite !np_zeros_nonneg by lia. simpl. unfold mbind, M_mbind, M_bind.
  split.
  - intros e Hnet. by rewrite Hnet.
  - intros Hnet. by rewrite Hnet.
Qed.

End CollectMore.

Section SelectMore.
Context `{Scipy} `{NumpyRandom} `{Lightkurve} `{PyFormat}.

(** Without the KOI table neither collector gets anywhere: both raise
    [FileNotFoundError] with no draw made, no file created and nothing
    downloaded. *)
Theorem collectors_need_koi_table
    globals n_curves n_timesteps downsize_method phase_fold smooth pct_transit
    savepath w :
  w_koi w = None ->
  collect_curves n_curves n_timesteps downsize_method pct_transit w
  = (Raise (FileNotFoundError "Data/exoplanet_archive_KOIs.csv"), w) /\
  collect_curves_tofiles globals n_curves n_timesteps downsize_method
    phase_fold smooth pct_transit savepath w
  = (Raise (FileNotFoundError "Data/exoplanet_archive_KOIs.csv"), w).
Proof.
  intros Hkoi.
  unfold collect_curves, collect_curves_tofiles, select_ids, mbind, M_mbind,
    M_bind, read_koi.
  by rewrite Hkoi.
Qed.

(** A sample that cannot be drawn stops the choice of stars with a
    [ValueError] and the generator untouched: a negative number of
    non-transit curves (a negative [n_curves]), or a positive number of them
    when the table has no FALSE POSITIVE row. *)
Theorem select_ids_rejects n_curves pct_transit w data k :
  w_koi w = Some data ->
  n_nontransit n_curves pct_transit = Ok k ->
  (k < 0)%Z \/ (k ≠ 0%Z /\ kepids_with "FALSE POSITIVE" data = []) ->
  exists msg, select_ids n_curves pct_transit w = (Raise (ValueError msg), w).
Proof.
  intros Hkoi Hk Hbad.
  unfold select_ids, mbind, M_mbind, M_bind, read_koi, lift.
  rewrite Hkoi, Hk. unfold np_random_choice.
  destruct (Z.ltb_spec k 0) as [Hneg|Hpos]; [by eexists|].
  destruct Hbad as [?|[Hne ->]]; [lia|].
  rewrite bool_decide_eq_true_2 by done.
  rewrite (proj2 (Z.eqb_neq k 0)) by done. simpl. by eexists.
Qed.

Lemma stitch_fittable (c : LightCurveCollection) :
  fittable c ->
  exists s, stitch c = Ok s /\
    tot_flux s ≠ [] /\ tot_time s ≠ [] /\
    length (tot_flux s) = length (tot_time s) /\
    length (tot_flux_err s) = length (tot_time s) /\
    length (tot_qual s) = length (tot_time s).
Proof.
  intros [Hne [popts Hfit]].
  pose proof (stitch_spec c popts Hfit) as Hs.
  destruct (stitch_lengths _ _ Hs) as (Hf & He & Hq).
  eexists. split; [exact Hs|].
  assert (length (concat (map lc_time c)) ≠ 0) as Hlen.
  { unfold lc_time.
    rewrite (length_concat_map (map s_time)) by (intros; apply length_map).
    by destruct (concat c). }
  simpl in *. repeat split; try done.
  - intros Hnil. rewrite Hnil in Hf. simpl in Hf. lia.
  - intros Hnil. by rewrite Hnil in Hlen.
Qed.

Lemma curves_loop_returns n_timesteps transit_ids all_ids :
  steady_archive -> (0 <= n_timesteps)%Z ->
  forall i a w, exists a' w',
    curves_loop n_timesteps "interpolate" transit_ids all_ids i a w
    = (Ok a', w').
Proof.
  intros Hnet Hn.
  induction all_ids as [|star rest IH]; intros i a w; [by eexists _, _|].
  simpl. unfold mbind, M_mbind, M_bind, search_download.
  destruct (Hnet star (w_net w)) as (c & n' & -> & Hc).
  destruct (stitch_fittable c Hc) as (s & Hs & Hflux & Htime & Hf & He & Hq).
  unfold lift. simpl. rewrite Hs.
  destruct (mask_poor_quality_same_length s Hf He Hq)
    as (s' & Hmask & Ht' & _ & _ & Hl' & _).
  rewrite Hmask.
  destruct (downsize_interpolate n_timesteps (tot_flux s') (tot_time s') Hn)
    as (flux & time & Hdown & Hlf & Hlt).
  { intros Hnil. rewrite Hnil in Hl'. by destruct (tot_flux s). }
  { by rewrite Ht'. }
  rewrite Hdown. unfold np_setrow.
  rewrite !decide_True by done. apply IH.
Qed.

(** [collect_curves] returns its arrays whenever the stars could be chosen,
    [n_timesteps] is not negative, the method is 'interpolate', and the
    archive answers every request with a collection that has cadences and
    that the optimiser fits. *)
Theorem collect_curves_returns
    n_curves n_timesteps pct_transit w all_ids transit_ids w1 :
  select_ids n_curves pct_transit w = (Ok (all_ids, transit_ids), w1) ->
  steady_archive -> (0 <= n_timesteps)%Z ->
  exists a w',
    collect_curves n_curves n_timesteps "interpolate" pct_transit w
    = (Ok a, w').
Proof.
  intros Hsel Hnet Hn. unfold collect_curves, mbind, M_mbind, M_bind.
  rewrite Hsel. unfold lift, np_zeros2, mbind, result_bind.
  rewrite !np_zeros_nonneg by lia. simpl.
  by apply curves_loop_returns.
Qed.

End SelectMore.

(** ** collect_curves_tofiles, further *)

Section TofilesMore.
Context `{Scipy} `{NumpyRandom} `{Lightkurve} `{PyFormat}.

Lemma touch_file_lookup_absent path w :
  w_fs w !! path = None -> w_fs (touch_file path w) !! path = Some [].
Proof.
  intros Hnone. unfold touch_file. rewrite Hnone. simpl.
  apply lookup_insert_eq.
Qed.

Lemma touch_file_lookup_ne path w q :
  path ≠ q -> w_fs (touch_file path w) !! q = w_fs w !! q.
Proof.
  intros Hne. unfold touch_file. destruct (w_fs w !! path); [done|].
  simpl. by apply lookup_insert_ne.
Qed.

(** The file check in a fresh directory: the three files are created. *)
Lemma prepare_files_fresh savepath n_timesteps pct_transit w :
  savepath ∈ w_dirs w ->
  w_fs w !! filepath_of savepath "flux" n_timesteps pct_transit = None ->
  w_fs w !! filepath_of savepath "time" n_timesteps pct_transit = None ->
  w_fs w !! filepath_of savepath "labels" n_timesteps pct_transit = None ->
  exists w',
    prepare_files savepath n_timesteps pct_transit w
    = (Ok [ filepath_of savepath "flux" n_timesteps pct_transit;
            filepath_of savepath "time" n_timesteps pct_transit;
            filepath_of savepath "labels" n_timesteps pct_transit ], w') /\
    w_fs w' !! filepath_of savepath "flux" n_timesteps pct_transit = Some [] /\
    w_fs w' !! filepath_of savepath "time" n_timesteps pct_transit = Some [] /\
    w_fs w' !! filepath_of savepath "labels" n_timesteps pct_transit = Some [] /\
    w_dirs w' = w_dirs w /\ w_koi w' = w_koi w.
Proof.
  intros Hdir H0' H1' H2'.
  set (p0 := filepath_of savepath "flux" n_timesteps pct_transit) in *.
  set (p1 := filepath_of savepath "time" n_timesteps pct_transit) in *.
  set (p2 := filepath_of savepath "labels" n_timesteps pct_transit) in *.
  assert (p0 ≠ p1) as H01 by (by apply filepath_of_tag_ne).
  assert (p0 ≠ p2) as H02 by (by apply filepath_of_tag_ne).
  assert (p1 ≠ p2) as H12 by (by apply filepath_of_tag_ne).
  exists (touch_file p2 (touch_file p1 (touch_file p0 w))).
  split; [|split; [|split; [|split; [|split]]]].
  - unfold prepare_files, mbind, M_mbind, M_bind.
    rewrite (check_files_step _ _ _ _ _ _ _ _ LenList0);
      [|done|unfold records; fold p0; by rewrite H0'].
    rewrite (check_files_step _ _ _ _ _ _ _ _ LenList0);
      [|by rewrite dirs_touch
       |unfold records; fold p0 p1; by rewrite touch_file_lookup_ne, H1'].
    rewrite (check_files_step _ _ _ _ _ _ _ _ LenList0);
      [|by rewrite !dirs_touch
       |unfold records; fold p0 p1 p2;
        by rewrite !touch_file_lookup_ne, H2'].
    reflexivity.
  - rewrite !touch_file_lookup_ne by done. by apply touch_file_lookup_absent.
  - rewrite touch_file_lookup_ne by done. apply touch_file_lookup_absent.
    by rewrite touch_file_lookup_ne.
  - apply touch_file_lookup_absent. by rewrite !touch_file_lookup_ne.
  - by rewrite !dirs_touch.
  - unfold touch_file. by repeat case_match.
Qed.

(** With the module's own globals the function can be called once.  A
    first call that gets to the file check in a directory without the three
    files leaves them behind empty, however it ends.  Any later call for the
    same files (the same [n_timesteps], [pct_transit] and [savepath];
    any [n_curves], method, options and globals; any generator and archive
    state) that finds the flux file as the first call left it and gets to
    the file check dies there, on pandas' [EmptyDataError]. *)
Theorem tofiles_second_call_fails
    n_curves n_timesteps downsize_method phase_fold smooth pct_transit
    savepath w ids wa
    globals' n_curves' downsize_method' phase_fold' smooth' w2 ids' wb :
  savepath ∈ w_dirs w ->
  w_fs w !! filepath_of savepath "flux" n_timesteps pct_transit = None ->
  w_fs w !! filepath_of savepath "time" n_timesteps pct_transit = None ->
  w_fs w !! filepath_of savepath "labels" n_timesteps pct_transit = None ->
  select_ids n_curves pct_transit w = (Ok ids, wa) ->
  w_fs w2 !! filepath_of savepath "flux" n_timesteps pct_transit
  = w_fs (collect_curves_tofiles utils_globals n_curves n_timesteps
            downsize_method phase_fold smooth pct_transit savepath w).2
      !! filepath_of savepath "flux" n_timesteps pct_transit ->
  select_ids n_curves' pct_transit w2 = (Ok ids', wb) ->
  (w_fs (collect_curves_tofiles utils_globals n_curves n_timesteps
           downsize_method phase_fold smooth pct_transit savepath w).2
     !! filepath_of savepath "flux" n_timesteps pct_transit = Some [] /\
   w_fs (collect_curves_tofiles utils_globals n_curves n_timesteps
           downsize_method phase_fold smooth pct_transit savepath w).2
     !! filepath_of savepath "time" n_timesteps pct_transit = Some [] /\
   w_fs (collect_curves_tofiles utils_globals n_curves n_timesteps
           downsize_method phase_fold smooth pct_transit savepath w).2
     !! filepath_of savepath "labels" n_timesteps pct_transit = Some []) /\
  collect_curves_tofiles globals' n_curves' n_timesteps downsize_method'
    phase_fold' smooth' pct_transit savepath w2
  = (Raise EmptyDataError, wb).
Proof.
  intros Hdir H0' H1' H2' Hsel Hsame Hsel'.
  set (w1 := (collect_curves_tofiles utils_globals n_curves n_timesteps
                downsize_method phase_fold smooth pct_transit savepath w).2)
    in *.
  assert (w_fs w1 !! filepath_of savepath "flux" n_timesteps pct_transit
          = Some [] /\
          w_fs w1 !! filepath_of savepath "time" n_timesteps pct_transit
          = Some [] /\
          w_fs w1 !! filepath_of savepath "labels" n_timesteps pct_transit
          = Some []) as Hleft.
  { subst w1. unfold collect_curves_tofiles, mbind, M_mbind, M_bind.
    rewrite Hsel. destruct ids as [all_ids transit_ids].
    destruct (confined_select_ids [] n_curves pct_transit w)
      as (_ & Hdirs & Hfs).
    rewrite Hsel in Hdirs, Hfs. simpl in Hdirs, Hfs.
    destruct (prepare_files_fresh savepath n_timesteps pct_transit wa)
      as (w3 & -> & Hflux & Htime & Hlabels & _);
      rewrite ?Hfs by apply not_elem_of_nil; rewrite ?Hdirs; try done.
    by rewrite frames_tofiles_loop_utils. }
  split; [exact Hleft|].
  destruct Hleft as (Hflux & _). rewrite Hflux in Hsame.
  unfold collect_curves_tofiles, mbind, M_mbind, M_bind.
  rewrite Hsel'. destruct ids' as [all_ids' transit_ids'].
  destruct (confined_select_ids [] n_curves' pct_transit w2) as (_ & _ & Hfs).
  rewrite Hsel' in Hfs. simpl in Hfs.
  unfold prepare_files, mbind, M_mbind, M_bind.
  rewrite (check_files_unreadable _ _ _ _ _ _ _ _ [] EmptyDataError);
    [done| |done].
  rewrite Hfs by apply not_elem_of_nil. exact Hsame.
Qed.

(** A missing directory is fatal as soon as a file has to be created: the
    call raises [FileNotFoundError] for the flux file, with the stars chosen
    and nothing else done. *)
Theorem tofiles_missing_directory
    globals n_curves n_timesteps downsize_method phase_fold smooth pct_transit
    savepath w ids w1 :
  select_ids n_curves pct_transit w = (Ok ids, w1) ->
  savepath ∉ w_dirs w ->
  w_fs w !! filepath_of savepath "flux" n_timesteps pct_transit = None ->
  collect_curves_tofiles globals n_curves n_timesteps downsize_method
    phase_fold smooth pct_transit savepath w
  = (Raise (FileNotFoundError
              (filepath_of savepath "flux" n_timesteps pct_transit)), w1).
Proof.
  intros Hsel Hdir Hnone.
  unfold collect_curves_tofiles, mbind, M_mbind, M_bind.
  rewrite Hsel. destruct ids as [all_ids transit_ids].
  destruct (confined_select_ids [] n_curves pct_transit w) as (_ & Hdirs & Hfs).
  rewrite Hsel in Hdirs, Hfs. simpl in Hdirs, Hfs.
  unfold prepare_files, mbind, M_mbind, M_bind.
  rewrite check_files_no_directory; [done|by rewrite Hdirs|].
  by rewrite Hfs by apply not_elem_of_nil.
Qed.

(** When the call returns normally, each of the three files has gained
    exactly one row per star, in the order the stars were processed, and
    the labels rows hold 1 for the stars that occur in [transit_ids] and 0
    for the others. *)
Theorem tofiles_normal_return
    globals n_curves n_timesteps downsize_method phase_fold smooth pct_transit
    savepath w all_ids transit_ids w1 filepaths w2 w' :
  select_ids n_curves pct_transit w = (Ok (all_ids, transit_ids), w1) ->
  prepare_files savepath n_timesteps pct_transit w1 = (Ok filepaths, w2) ->
  collect_curves_tofiles globals n_curves n_timesteps downsize_method
    phase_fold smooth pct_transit savepath w = (Ok tt, w') ->
  exists flux_rows time_rows,
    length flux_rows = length all_ids /\ length time_rows = length all_ids /\
    file_rows (w_fs w') (filepath_of savepath "flux" n_timesteps pct_transit)
    = file_rows (w_fs w) (filepath_of savepath "flux" n_timesteps pct_transit)
      ++ flux_rows /\
    file_rows (w_fs w') (filepath_of savepath "time" n_timesteps pct_transit)
    = file_rows (w_fs w) (filepath_of savepath "time" n_timesteps pct_transit)
      ++ time_rows /\
    file_rows (w_fs w') (filepath_of savepath "labels" n_timesteps pct_transit)
    = file_rows (w_fs w) (filepath_of savepath "labels" n_timesteps pct_transit)
      ++ map (fun star => [CInt (if bool_decide (star ∈ transit_ids)
                                 then 1%Z else 0%Z)]) all_ids.
Proof.
  intros Hsel Hprep Hrun.
  unfold collect_curves_tofiles, mbind, M_mbind, M_bind in Hrun.
  rewrite Hsel, Hprep in Hrun.
  pose proof (prepare_files_paths _ _ _ _ _ _ Hprep) as ->.
  eapply tofiles_loop_rows in Hrun; [|by apply filepath_of_tag_ne..].
  destruct Hrun as (Hk & flux_rows & time_rows & L0 & L1 & Q0 & Q1 & Q2).
  simpl in Hk. rewrite Hk in *. rewrite firstn_all in Q2.
  exists flux_rows, time_rows.
  assert (forall path, file_rows (w_fs w2) path = file_rows (w_fs w) path)
    as Hrows.
  { intros path.
    pose proof (frames_rows_prepare savepath n_timesteps pct_transit w1 path)
      as Hp. rewrite Hprep in Hp. simpl in Hp. rewrite Hp.
    pose proof (frames_select_ids n_curves pct_transit w) as Hs.
    rewrite Hsel in Hs. simpl in Hs. unfold file_rows. by rewrite Hs. }
  rewrite <- !Hrows. repeat split; try done.
  rewrite Q2. f_equal. apply map_ext. intros star. do 2 f_equal.
  unfold tofiles_label, np_contains.
  destruct (existsb (py_eq_int (PyInt star)) transit_ids) eqn:E.
  - rewrite bool_decide_eq_true_2; [done|].
    apply existsb_exists in E as (z & Hz & Heq). simpl in Heq.
    apply Z.eqb_eq in Heq as ->. by apply list_elem_of_In.
  - rewrite bool_decide_eq_false_2; [done|]. intros Hin.
    assert (existsb (py_eq_int (PyInt star)) transit_ids = true) as E'.
    { apply existsb_exists. exists star.
      split; [by apply list_elem_of_In|]. apply Z.eqb_refl. }
    congruence.
Qed.

(** Binding [stitch_quarters] is not enough for the two options: with it
    bound and the first star stitched, [smooth=True] raises
    [NameError: medfilt], and [phase_fold=True] alone raises
    [NameError: binned_statistic] once lightkurve has folded the curve. *)
Theorem tofiles_options_name_errors
    globals n_curves n_timesteps downsize_method phase_fold smooth pct_transit
    savepath w star rest transit_ids w1 filepaths w2 curve w3 f s :
  select_ids n_curves pct_transit w = (Ok (star :: rest, transit_ids), w1) ->
  prepare_files savepath n_timesteps pct_transit w1 = (Ok filepaths, w2) ->
  search_download star w2 = (Ok curve, w3) ->
  globals !! "stitch_quarters" = Some (PyStitcher f) -> f curve = Ok s ->
  (smooth = true -> globals !! "medfilt" = None ->
   collect_curves_tofiles globals n_curves n_timesteps downsize_method
     phase_fold smooth pct_transit savepath w
   = (Raise (NameError "medfilt"), w3)) /\
  (smooth = false -> phase_fold = true ->
   globals !! "binned_statistic" = None ->
   forall folded, bls_fold curve = Ok folded ->
   collect_curves_tofiles globals n_curves n_timesteps downsize_method
     phase_fold smooth pct_transit savepath w
   = (Raise (NameError "binned_statistic"), w3)).
Proof.
  intros Hsel Hprep Hnet Hstitch Hs.
  assert (load_global globals "stitch_quarters" = Ok (PyStitcher f)) as Hload.
  { unfold load_global. by rewrite Hstitch. }
  split.
  - intros -> Hmed.
    unfold collect_curves_tofiles, mbind, M_mbind, M_bind.
    rewrite Hsel, Hprep. simpl. unfold tofiles_star, mbind, M_mbind, M_bind.
    rewrite Hnet. unfold lift. rewrite Hload. simpl. rewrite Hs.
    unfold load_global. by rewrite Hmed.
  - intros -> -> Hbin [folded_time folded_flux] Hfold.
    unfold collect_curves_tofiles, mbind, M_mbind, M_bind.
    rewrite Hsel, Hprep. simpl. unfold tofiles_star, mbind, M_mbind, M_bind.
    rewrite Hnet. unfold lift. rewrite Hload. simpl. rewrite Hs.
    unfold mret, M_mret, M_ret. rewrite Hfold.
    unfold load_global. by rewrite Hbin.
Qed.

End TofilesMore.

(** ** The further properties on the concrete world *)

Lemma steady_lightkurve_steady : @steady_archive demo_scipy steady_lightkurve.
Proof.
  intros star n. exists demo_curve, (S n). split; [reflexivity|].
  split; [discriminate|]. exists demo_popts.
  repeat constructor; vm_compute; reflexivity.
Qed.

Section SteadyExamples.
#[local] Existing Instances demo_scipy demo_random steady_lightkurve demo_format.

Lemma collect_curves_returns_demo :
  exists a w',
    collect_curves 4 3 "interpolate" 48.8 steady_world = (Ok a, w').
Proof.
  apply (collect_curves_returns 4 3 48.8 steady_world
           [11446443%Z; 10418224%Z; 10418224%Z] [11446443%Z]
           (select_ids 4 48.8 steady_world).2).
  - vm_compute; reflexivity.
  - exact steady_lightkurve_steady.
  - lia.
Defined.

End SteadyExamples.

Section MoreExamples.
#[local] Existing Instances demo_scipy demo_random demo_lightkurve demo_format.

Lemma stitch_raises_first_failure_demo :
  stitch ([demo_quarter1] ++ demo_lone_quarter :: [demo_quarter2])
  = Raise (TypeError "The number of func parameters=2 must not exceed the number of data points").
Proof.
  apply (stitch_raises_first_failure [demo_quarter1] [(2, 2)%float]).
  - repeat constructor; vm_compute; reflexivity.
  - vm_compute; reflexivity.
Defined.

Lemma stitch_keeps_nan_cadence_demo :
  exists s, stitch demo_curve = Ok s /\
    tot_flux s !! (length (concat (take 1 demo_curve)) + 1) = Some nan /\
    tot_flux_err s !! (length (concat (take 1 demo_curve)) + 1) = Some nan.
Proof.
  apply (stitch_keeps_nan_cadence demo_curve demo_popts 1 demo_quarter2 1
           (Sample 4 nan 1 0)).
  - repeat constructor; vm_compute; reflexivity.
  - reflexivity.
  - reflexivity.
  - reflexivity.
Defined.

Lemma mask_poor_quality_idempotent_demo :
  mask_poor_quality demo_masked = Ok demo_masked.
Proof.
  apply (mask_poor_quality_idempotent demo_curve demo_stitched).
  - vm_compute; reflexivity.
  - vm_compute; reflexivity.
Defined.

Lemma mask_poor_quality_survivors_demo :
  tot_flux demo_stitched !! 0%nat = Some 1%float /\ isfinite 1 = true /\
  exists t e,
    tot_time demo_stitched !! 0%nat = Some t /\ isfinite t = true /\
    tot_flux_err demo_stitched !! 0%nat = Some e /\ (0 <? e)%float = true /\
    isfinite e = true /\ tot_qual demo_stitched !! 0%nat = Some 0%Z.
Proof.
  apply (mask_poor_quality_survivors demo_curve demo_stitched demo_masked).
  - vm_compute; reflexivity.
  - vm_compute; reflexivity.
  - reflexivity.
  - reflexivity.
Defined.

Lemma downsize_interpolate_rejects_demo :
  exists msg,
    downsize "interpolate" (-1) [1; 2]%float [0; 1]%float
    = Raise (ValueError msg).
Proof.
  apply (downsize_interpolate_rejects (-1) [1; 2]%float [0; 1]%float).
  left. lia.
Defined.

Lemma collect_curves_one_row_per_star_demo :
  collect_curves 3 3 "interpolate" 50
    (demo_world ∅ [Ok (Some demo_curve); Ok (Some demo_short_curve)])
  = (Ok demo_arrays_two,
     (collect_curves 3 3 "interpolate" 50
        (demo_world ∅ [Ok (Some demo_curve); Ok (Some demo_short_curve)])).2) /\
  length (all_curves demo_arrays_two) = 2 /\
  exists k_n k_t,
    py_int (py_float 3 * (1 - 50 / 100))%float = Ok k_n /\
    py_int (py_float 3 * (50 / 100))%float = Ok k_t /\
    (0 <= k_n)%Z /\ (0 <= k_t)%Z /\
    Z.of_nat (length (all_curves demo_arrays_two)) = (k_n + k_t)%Z /\
    Z.of_nat (length (all_times demo_arrays_two)) = (k_n + k_t)%Z /\
    Z.of_nat (length (all_labels demo_arrays_two)) = (k_n + k_t)%Z.
Proof.
  assert (collect_curves 3 3 "interpolate" 50
            (demo_world ∅ [Ok (Some demo_curve); Ok (Some demo_short_curve)])
          = (Ok demo_arrays_two,
             (collect_curves 3 3 "interpolate" 50
                (demo_world ∅ [Ok (Some demo_curve);
                               Ok (Some demo_short_curve)])).2)) as Hrun
    by (vm_compute; reflexivity).
  split; [exact Hrun|]. split; [reflexivity|].
  exact (collect_curves_one_row_per_star 3 3 "interpolate" 50 _ _ _
           demo_random_lawful Hrun).
Defined.

Lemma collect_curves_negative_timesteps_demo :
  collect_curves 1 (-1) "truncate" 100 (demo_world ∅ [Ok (Some demo_curve)])
  = (Raise (ValueError "negative dimensions are not allowed"),
     (select_ids 1 100 (demo_world ∅ [Ok (Some demo_curve)])).2).
Proof.
  apply (collect_curves_negative_timesteps 1 (-1) "truncate" 100
           (demo_world ∅ [Ok (Some demo_curve)]) [11446443%Z] [11446443%Z]).
  - vm_compute; reflexivity.
  - lia.
Defined.

Lemma collect_curves_download_fails_demo :
  collect_curves 1 3 "interpolate" 100 (demo_world ∅ [Ok None])
  = (Raise (TypeError "object of type 'NoneType' has no len()"),
     (search_download 11446443
        (select_ids 1 100 (demo_world ∅ [Ok None])).2).2).
Proof.
  apply (proj2 (collect_curves_download_fails 1 3 "interpolate" 100
                  (demo_world ∅ [Ok None]) 11446443 [] [11446443%Z]
                  (select_ids 1 100 (demo_world ∅ [Ok None])).2
                  (search_download 11446443
                     (select_ids 1 100 (demo_world ∅ [Ok None])).2).2
                  ltac:(vm_compute; reflexivity) ltac:(lia))).
  vm_compute; reflexivity.
Defined.

Lemma collectors_need_koi_table_demo :
  collect_curves 4 3 "interpolate" 48.8 demo_world_no_table
  = (Raise (FileNotFoundError "Data/exoplanet_archive_KOIs.csv"),
     demo_world_no_table) /\
  collect_curves_tofiles utils_globals 4 3 "interpolate" false false 48.8
    "../LC_Data" demo_world_no_table
  = (Raise (FileNotFoundError "Data/exoplanet_archive_KOIs.csv"),
     demo_world_no_table).
Proof.
  apply (collectors_need_koi_table utils_globals 4 3 "interpolate" false false
           48.8 "../LC_Data" demo_world_no_table).
  reflexivity.
Defined.

Lemma select_ids_rejects_demo :
  exists msg,
    select_ids (-4) 48.8 (demo_world ∅ [])
    = (Raise (ValueError msg), demo_world ∅ []).
Proof.
  apply (select_ids_rejects (-4) 48.8 (demo_world ∅ []) demo_koi (-2)).
  - reflexivity.
  - vm_compute; reflexivity.
  - left. lia.
Defined.

Lemma tofiles_second_call_fails_demo :
  (w_fs (collect_curves_tofiles utils_globals 4 5 "truncate" false false 48.8
           "../LC_Data" (demo_world ∅ [Ok (Some demo_short_curve)])).2
     !! filepath_of "../LC_Data" "flux" 5 48.8 = Some [] /\
   w_fs (collect_curves_tofiles utils_globals 4 5 "truncate" false false 48.8
           "../LC_Data" (demo_world ∅ [Ok (Some demo_short_curve)])).2
     !! filepath_of "../LC_Data" "time" 5 48.8 = Some [] /\
   w_fs (collect_curves_tofiles utils_globals 4 5 "truncate" false false 48.8
           "../LC_Data" (demo_world ∅ [Ok (Some demo_short_curve)])).2
     !! filepath_of "../LC_Data" "labels" 5 48.8 = Some []) /\
  collect_curves_tofiles utils_globals 2 5 "interpolate" false true 48.8
    "../LC_Data" (demo_world demo_three_empty [Ok (Some demo_curve)])
  = (Raise EmptyDataError,
     (select_ids 2 48.8
        (demo_world demo_three_empty [Ok (Some demo_curve)])).2).
Proof.
  apply (tofiles_second_call_fails 4 5 "truncate" false false 48.8
           "../LC_Data" (demo_world ∅ [Ok (Some demo_short_curve)])
           ([11446443%Z; 10418224%Z; 10418224%Z], [11446443%Z])
           (select_ids 4 48.8 (demo_world ∅ [Ok (Some demo_short_curve)])).2
           utils_globals 2 "interpolate" false true
           (demo_world demo_three_empty [Ok (Some demo_curve)])
           ([10418224%Z], [])).
  - vm_compute; reflexivity.
  - vm_compute; reflexivity.
  - vm_compute; reflexivity.
  - vm_compute; reflexivity.
  - vm_compute; reflexivity.
  - vm_compute; reflexivity.
  - vm_compute; reflexivity.
Defined.

Lemma tofiles_missing_directory_demo :
  collect_curves_tofiles utils_globals 1 5 "truncate" false false 100
    "../LC_Data" demo_world_no_directory
  = (Raise (FileNotFoundError (filepath_of "../LC_Data" "flux" 5 100)),
     (select_ids 1 100 demo_world_no_directory).2).
Proof.
  apply (tofiles_missing_directory utils_globals 1 5 "truncate" false false
           100 "../LC_Data" demo_world_no_directory
           ([11446443%Z], [11446443%Z])).
  - vm_compute; reflexivity.
  - vm_compute. discriminate.
  - vm_compute; reflexivity.
Defined.

Lemma tofiles_normal_return_demo :
  exists flux_rows time_rows,
    length flux_rows = length [11446443%Z] /\
    length time_rows = length [11446443%Z] /\
    file_rows
      (w_fs (collect_curves_tofiles patched_globals 1 5 "truncate" false false
               100 "../LC_Data" (demo_world ∅ [Ok (Some demo_short_curve)])).2)
      (filepath_of "../LC_Data" "flux" 5 100)
    = file_rows (w_fs (demo_world ∅ [Ok (Some demo_short_curve)]))
                (filepath_of "../LC_Data" "flux" 5 100) ++ flux_rows /\
    file_rows
      (w_fs (collect_curves_tofiles patched_globals 1 5 "truncate" false false
               100 "../LC_Data" (demo_world ∅ [Ok (Some demo_short_curve)])).2)
      (filepath_of "../LC_Data" "time" 5 100)
    = file_rows (w_fs (demo_world ∅ [Ok (Some demo_short_curve)]))
                (filepath_of "../LC_Data" "time" 5 100) ++ time_rows /\
    file_rows
      (w_fs (collect_curves_tofiles patched_globals 1 5 "truncate" false false
               100 "../LC_Data" (demo_world ∅ [Ok (Some demo_short_curve)])).2)
      (filepath_of "../LC_Data" "labels" 5 100)
    = file_rows (w_fs (demo_world ∅ [Ok (Some demo_short_curve)]))
                (filepath_of "../LC_Data" "labels" 5 100)
      ++ map (fun star => [CInt (if bool_decide (star ∈ [11446443%Z])
                                 then 1%Z else 0%Z)]) [11446443%Z].
Proof.
  apply (tofiles_normal_return patched_globals 1 5 "truncate" false false 100
           "../LC_Data" (demo_world ∅ [Ok (Some demo_short_curve)])
           [11446443%Z] [11446443%Z]
           (select_ids 1 100 (demo_world ∅ [Ok (Some demo_short_curve)])).2
           [ "../LC_Data/flux_all_5_100.0.csv";
             "../LC_Data/time_all_5_100.0.csv";
             "../LC_Data/labels_all_5_100.0.csv" ]
           (prepare_files "../LC_Data" 5 100
              (select_ids 1 100 (demo_world ∅ [Ok (Some demo_short_curve)])).2).2).
  - vm_compute; reflexivity.
  - vm_compute; reflexivity.
  - vm_compute; reflexivity.
Defined.

Lemma tofiles_options_name_errors_demo :
  collect_curves_tofiles patched_globals 1 5 "truncate" false true 100
    "../LC_Data" (demo_world ∅ [Ok (Some demo_short_curve)])
  = (Raise (NameError "medfilt"),
     (search_download 11446443
        (prepare_files "../LC_Data" 5 100
           (select_ids 1 100
              (demo_world ∅ [Ok (Some demo_short_curve)])).2).2).2).
Proof.
  apply (proj1 (tofiles_options_name_errors patched_globals 1 5 "truncate"
                  false true 100 "../LC_Data"
                  (demo_world ∅ [Ok (Some demo_short_curve)])
                  11446443 [] [11446443%Z]
                  (select_ids 1 100
                     (demo_world ∅ [Ok (Some demo_short_curve)])).2
                  [ "../LC_Data/flux_all_5_100.0.csv";
                    "../LC_Data/time_all_5_100.0.csv";
                    "../LC_Data/labels_all_5_100.0.csv" ]
                  (prepare_files "../LC_Data" 5 100
                     (select_ids 1 100
                        (demo_world ∅ [Ok (Some demo_short_curve)])).2).2
                  (Some demo_short_curve)
                  (search_download 11446443
                     (prepare_files "../LC_Data" 5 100
                        (select_ids 1 100
                           (demo_world ∅ [Ok (Some demo_short_curve)])).2).2).2
                  stitch_downloaded demo_short_stitched
                  ltac:(vm_compute; reflexivity) ltac:(vm_compute; reflexivity)
                  ltac:(vm_compute; reflexivity) ltac:(reflexivity)
                  ltac:(vm_compute; reflexivity))).
  - reflexivity.
  - reflexivity.
Defined.

End MoreExamples.
